(** * Hindsight2: the LLM provider layer and the smart reasoning pipeline

    A shallow embedding of [src/llm]: the structured-output parser of
    [base_provider.py], the TOON helpers of [toon_formatter.py], the two
    backends [gemini_provider.py] and [claude_provider.py], and the
    three-step pipeline and renderer of [smart_provider.py].

    Python values are an inductive type, exceptions are data carried by a
    [result], and the remote model is a world-passing oracle.  What lives
    outside the repository (the [json] module, the [toon_format] package,
    the vendor SDKs) enters through type classes, so every statement holds
    for any behaviour of those collaborators.  Console logging ([print]) has
    no influence on any returned value and is left out. *)

From Stdlib Require Import String Ascii List ZArith Bool Lia DecimalString.
Import ListNotations.

Local Open Scope string_scope.
Local Open Scope Z_scope.

(** ** A fragment of the Python runtime *)

Module Py.

(** Values that travel between the stages: what [json.loads] can build
    (numbers are integers; floating point is outside the model). *)
#[warnings="-register-all"]
Inductive value : Type :=
| VNone
| VBool (b : bool)
| VInt (n : Z)
| VStr (s : string)
| VList (l : list value)
| VDict (d : list (string * value)).

(** The part of the exception hierarchy the sources name or provoke. *)
Inductive exn_class : Type :=
| Exception
| ValueError
| JSONDecodeError
| ImportError
| ModuleNotFoundError
| AttributeError
| TypeError
| IndexError
| KeyError
| RuntimeError.

Definition exn_class_eqb (a b : exn_class) : bool :=
  match a, b with
  | Exception, Exception | ValueError, ValueError
  | JSONDecodeError, JSONDecodeError | ImportError, ImportError
  | ModuleNotFoundError, ModuleNotFoundError
  | AttributeError, AttributeError | TypeError, TypeError
  | IndexError, IndexError | KeyError, KeyError
  | RuntimeError, RuntimeError => true
  | _, _ => false
  end.

(** [issubclass c h]: an [except h] clause catches an exception of class [c]. *)
Definition issubclass (c h : exn_class) : bool :=
  match h with
  | Exception => true
  | ValueError => match c with ValueError | JSONDecodeError => true | _ => false end
  | ImportError => match c with ImportError | ModuleNotFoundError => true | _ => false end
  | _ => exn_class_eqb c h
  end.

(** An exception instance; [exn_msg] is what [str(e)] returns. *)
Record exn : Type := mk_exn { exn_cls : exn_class; exn_msg : string }.

Inductive result (A : Type) : Type :=
| Ok (a : A)
| Raise (e : exn).
Arguments Ok {A} a.
Arguments Raise {A} e.

Definition bind {A B} (r : result A) (k : A -> result B) : result B :=
  match r with
  | Ok a => k a
  | Raise e => Raise e
  end.

Notation "x <- c ;; k" := (bind c (fun x => k))
  (at level 61, c at next level, right associativity).

(** [try: body except h1 ...: ...]: the first clause whose class matches
    handles the exception; with no match it propagates. *)
Fixpoint dispatch {A} (hs : list (exn_class * (exn -> result A))) (e : exn)
  : result A :=
  match hs with
  | [] => Raise e
  | (h, k) :: hs' => if issubclass (exn_cls e) h then k e else dispatch hs' e
  end.

Definition try_except {A} (body : result A)
  (hs : list (exn_class * (exn -> result A))) : result A :=
  match body with
  | Ok a => Ok a
  | Raise e => dispatch hs e
  end.

Definition raises {A} (r : result A) : bool :=
  match r with Ok _ => false | Raise _ => true end.

(** *** Text *)

Definition LF : string := String "010"%char EmptyString.
Definition DQUOTE : string := String "034"%char EmptyString.

Definition len (s : string) : Z := Z.of_nat (String.length s).

Fixpoint str_drop (n : nat) (s : string) : string :=
  match n, s with
  | O, _ => s
  | S n', String _ s' => str_drop n' s'
  | S _, EmptyString => EmptyString
  end.

Fixpoint str_take (n : nat) (s : string) : string :=
  match n, s with
  | S n', String c s' => String c (str_take n' s')
  | _, _ => EmptyString
  end.

(** [s.startswith(p)] *)
Fixpoint str_startswith (s p : string) {struct p} : bool :=
  match p, s with
  | EmptyString, _ => true
  | String a p', String b s' => Ascii.eqb a b && str_startswith s' p'
  | String _ _, EmptyString => false
  end.

(** Lowest offset of [sub] in [s], counted from [i]. *)
Fixpoint find_at (sub s : string) (i : nat) : option nat :=
  if str_startswith s sub then Some i
  else match s with
       | EmptyString => None
       | String _ s' => find_at sub s' (S i)
       end.


(** [sub in s] *)
Definition str_contains (sub s : string) : bool :=
  match find_at sub s 0 with Some _ => true | None => false end.

(** Slice bounds as Python normalises them: negative indices count from
    the end, everything is clamped to [0, len]. *)
Definition norm_index (n i : Z) : Z :=
  if i <? 0 then Z.max (i + n) 0 else Z.min i n.

(** [s.find(sub, start)]: -1 when absent. *)
Definition str_find (sub s : string) (start : Z) : Z :=
  if len s <? start then -1
  else
    let st := Z.to_nat (norm_index (len s) start) in
    match find_at sub (str_drop st s) st with
    | Some i => Z.of_nat i
    | None => -1
    end.

(** [s[start:stop]] *)
Definition py_slice (s : string) (start stop : Z) : string :=
  let a := norm_index (len s) start in
  let b := norm_index (len s) stop in
  str_take (Z.to_nat (b - a)) (str_drop (Z.to_nat a) s).

(** [c.isspace()] on the ASCII range. *)
Definition is_space (c : ascii) : bool :=
  let n := nat_of_ascii c in
  ((9 <=? n) && (n <=? 13) || (28 <=? n) && (n <=? 32))%nat.

Fixpoint str_lstrip (s : string) : string :=
  match s with
  | String c s' => if is_space c then str_lstrip s' else s
  | EmptyString => EmptyString
  end.

Fixpoint str_rstrip (s : string) : string :=
  match s with
  | EmptyString => EmptyString
  | String c s' =>
      match str_rstrip s' with
      | EmptyString => if is_space c then EmptyString else String c EmptyString
      | r => String c r
      end
  end.

(** [s.strip()] *)
Definition str_strip (s : string) : string := str_rstrip (str_lstrip s).

Definition upper_ascii (c : ascii) : ascii :=
  let n := nat_of_ascii c in
  if ((97 <=? n) && (n <=? 122))%nat then ascii_of_nat (n - 32) else c.

(** [s.upper()]; letters outside ASCII are left as they are. *)
Fixpoint str_upper (s : string) : string :=
  match s with
  | EmptyString => EmptyString
  | String c s' => String (upper_ascii c) (str_upper s')
  end.

Definition str_is_empty (s : string) : bool :=
  match s with EmptyString => true | _ => false end.

(** *** Truthiness, dictionaries, iteration *)

(** [bool(v)] *)
Definition truthy (v : value) : bool :=
  match v with
  | VNone => false
  | VBool b => b
  | VInt n => negb (n =? 0)
  | VStr s => negb (str_is_empty s)
  | VList l => match l with [] => false | _ => true end
  | VDict d => match d with [] => false | _ => true end
  end.

Fixpoint lookup (k : string) (d : list (string * value)) : option value :=
  match d with
  | [] => None
  | (k', v) :: d' => if String.eqb k k' then Some v else lookup k d'
  end.

Definition attribute_error (what : string) : exn :=
  mk_exn AttributeError what.

(** [o.get(k, default)]: only a dict has the method. *)
Definition dict_get (o : value) (k : string) (default : value) : result value :=
  match o with
  | VDict d => Ok (match lookup k d with Some v => v | None => default end)
  | _ => Raise (attribute_error "object has no attribute 'get'")
  end.

(** [o[k]] on a dict. *)
Definition dict_item (o : value) (k : string) : result value :=
  match o with
  | VDict d =>
      match lookup k d with
      | Some v => Ok v
      | None => Raise (mk_exn KeyError k)
      end
  | _ => Raise (mk_exn TypeError "object is not subscriptable")
  end.

(** A value used where the code needs a [str]. *)
Definition as_str (v : value) : result string :=
  match v with
  | VStr s => Ok s
  | _ => Raise (mk_exn TypeError "expected str")
  end.

(** [isinstance(v, str)] *)
Definition is_str (v : value) : bool :=
  match v with VStr _ => true | _ => false end.

(** [isinstance(v, dict)] *)
Definition is_dict (v : value) : bool :=
  match v with VDict _ => true | _ => false end.

(** [for x in v]: lists give their items, dicts their keys, strings their
    characters; nothing else is iterable. *)
Definition py_iter (v : value) : result (list value) :=
  match v with
  | VList l => Ok l
  | VDict d => Ok (map (fun kv => VStr (fst kv)) d)
  | VStr s => Ok (map (fun c => VStr (String c EmptyString)) (list_ascii_of_string s))
  | _ => Raise (mk_exn TypeError "object is not iterable")
  end.

(** [v == s] against a string literal. *)
Definition eq_str (v : value) (s : string) : bool :=
  match v with VStr t => String.eqb t s | _ => false end.

End Py.

Import Py.

(** ** World-passing computations

    A call to the remote model reads and changes the world [W]; a method
    that performs such calls maps a world to its outcome and the next
    world. *)

Module IO.

Definition M (W A : Type) : Type := W -> result A * W.

Definition ret {W A} (a : A) : M W A := fun w => (Ok a, w).

Definition lift {W A} (r : result A) : M W A := fun w => (r, w).

Definition bindM {W A B} (m : M W A) (k : A -> M W B) : M W B :=
  fun w =>
    match m w with
    | (Ok a, w') => k a w'
    | (Raise e, w') => (Raise e, w')
    end.

Fixpoint dispatchM {W A} (hs : list (exn_class * (exn -> M W A))) (e : exn)
  : M W A :=
  match hs with
  | [] => lift (Raise e)
  | (h, k) :: hs' => if issubclass (exn_cls e) h then k e else dispatchM hs' e
  end.

(** [try/except] around world-changing code: the handler runs in the
    world the failed body left behind. *)
Definition try_exceptM {W A} (body : M W A)
  (hs : list (exn_class * (exn -> M W A))) : M W A :=
  fun w =>
    match body w with
    | (Ok a, w') => (Ok a, w')
    | (Raise e, w') => dispatchM hs e w'
    end.

(** A generator body: the chunks yielded so far, how the body ended, and
    the world it left. *)
Definition G (W : Type) : Type := W -> list string * result unit * W.

(** [try: <generator body> except h: yield f(e)] *)
Definition try_except_yield {W} (body : G W) (h : exn_class)
  (k : exn -> string) : G W :=
  fun w =>
    match body w with
    | (ys, Ok u, w') => (ys, Ok u, w')
    | (ys, Raise e, w') =>
        if issubclass (exn_cls e) h then ((ys ++ [k e])%list, Ok tt, w')
        else (ys, Raise e, w')
    end.

End IO.

Import IO.

Notation "x <~ c ;; k" := (bindM c (fun x => k))
  (at level 61, c at next level, right associativity).

(** ** Collaborators from outside the repository *)

(** The standard [json] module: [json_decode] is [json.loads] with [None]
    standing for the [JSONDecodeError] it raises on an invalid document
    ([json_decode_error] is that exception's message); [json_dumps_indent2]
    is [json.dumps(_, indent=2)], total on the values of the model. *)
Class Json : Type := {
  json_decode : string -> option value;
  json_decode_error : string -> string;
  json_dumps_indent2 : value -> string
}.

Definition json_loads `{Json} (s : string) : result value :=
  match json_decode s with
  | Some v => Ok v
  | None => Raise (mk_exn JSONDecodeError (json_decode_error s))
  end.

(** [repr] of a value, which [str] and f-strings use for everything that
    is not already a string. *)
Class Repr : Type := { py_repr : value -> string }.

Definition py_str `{Repr} (v : value) : string :=
  match v with
  | VStr s => s
  | _ => py_repr v
  end.

(** The [toon_format] package once imported. *)
Record toon_module : Type := {
  toon_encode : value -> result string;
  toon_decode : string -> result value
}.

(** [from toon_format import ...]: the module, or the exception the
    import raises ([ImportError] when the package is not installed). *)
Class ToonFormat : Type := { import_toon_format : result toon_module }.

(** ** base_provider.py *)

Module BaseLLMProvider.
Section Methods.
Context `{Json}.

Definition raw_sentinel (response_text : string) : value :=
  VDict [("raw", VStr response_text)].

Definition parse_structured_output (response_text : string) : result value :=
  try_except
    (if str_contains "```json" response_text then
       let start := str_find "```json" response_text 0 + 7 in
       let end_ := str_find "```" response_text start in
       let json_str := str_strip (py_slice response_text start end_) in
       json_loads json_str
     else
       json_loads response_text)
    [(JSONDecodeError, fun _ => Ok (raw_sentinel response_text))].

(** The text the parser hands to [json.loads]: the fenced slice when the
    marker is present, the whole response otherwise. *)
Definition json_candidate (response_text : string) : string :=
  if str_contains "```json" response_text then
    let start := str_find "```json" response_text 0 + 7 in
    str_strip (py_slice response_text start (str_find "```" response_text start))
  else response_text.

End Methods.
End BaseLLMProvider.

(** ** toon_formatter.py *)

Module ToonFormatter.
Section Functions.
Context `{Json} `{ToonFormat}.

Definition encode_toon (data : value) : result string :=
  try_except
    (m <- import_toon_format ;; toon_encode m data)
    [(ImportError, fun _ => Ok (json_dumps_indent2 data));
     (Exception, fun _ => Ok (json_dumps_indent2 data))].

Definition decode_toon (toon_str : string) : result value :=
  try_except
    (m <- import_toon_format ;; toon_decode m toon_str)
    [(ImportError, fun _ => json_loads toon_str);
     (Exception, fun _ => Ok VNone)].

End Functions.
End ToonFormatter.

(** Optional arguments in a condition: [None] and the empty value are
    both false. *)
Definition opt_list_truthy {A} (o : option (list A)) : bool :=
  match o with
  | Some (_ :: _) => true
  | _ => false
  end.

Definition opt_str_truthy (o : option string) : bool :=
  match o with
  | Some s => negb (str_is_empty s)
  | None => false
  end.

Definition opt_list_items {A} (o : option (list A)) : list A :=
  match o with
  | Some l => l
  | None => []
  end.

Definition opt_str_text (o : option string) : string :=
  match o with
  | Some s => s
  | None => EmptyString
  end.

(** ** The Google SDK as the Gemini provider sees it *)

Module Genai.

Inductive part (image file : Type) : Type :=
| PText (s : string)
| PImage (i : image)
| PFile (f : file).
Arguments PText {image file} s.
Arguments PImage {image file} i.
Arguments PFile {image file} f.

(** A completed generation: the [text] accessor (which raises when the
    candidate carries no text part) and the finish reasons of the
    candidates. *)
Record response : Type := {
  response_text : result string;
  candidates : list string
}.

(** A streamed generation, as the consumer meets it: the [text] accessor
    of each chunk in order, then either the end of the stream or the
    exception the transport raises in its place. *)
Record stream : Type := {
  chunks : list (result string);
  stream_end : option exn
}.

Class Api (W image file : Type) : Type := {
  upload_file : string -> M W file;
  generate_content : list (part image file) -> M W response;
  generate_content_stream : list (part image file) -> M W stream
}.

End Genai.

(** ** gemini_provider.py *)

Module GeminiProvider.
Import Genai.
Section Methods.
Context {W image file : Type} `{Api W image file} `{Json} `{Repr}.
Variable _model_name : string.

Definition error_reply (e : exn) : value :=
  VDict [("response", VStr ("Error: " ++ exn_msg e));
         ("metadata", VDict [("error", VStr (exn_msg e))])].

(** The prompt parts both [send_message] and [stream_response] assemble
    before touching the network: system prompt, text, images. *)
Definition local_parts (text : string) (images : option (list image))
  (system_prompt : option string) : list (part image file) :=
  ((if opt_str_truthy system_prompt
    then [PText ("System instructions: " ++ opt_str_text system_prompt ++ LF ++ LF)]
    else [])
   ++ (if str_is_empty text then [] else [PText text])
   ++ (if opt_list_truthy images then map PImage (opt_list_items images) else []))%list.

(** The audio part needs an upload, which may fail. *)
Definition with_audio (parts : list (part image file))
  (audio_file : option string) : M W (list (part image file)) :=
  if opt_str_truthy audio_file then
    audio_part <~ upload_file (opt_str_text audio_file) ;;
    ret (parts ++ [PFile audio_part])%list
  else ret parts.

(** The [try] block of [send_message]. *)
Definition send_message_try (text : string) (images : option (list image))
  (audio_file : option string) (system_prompt : option string) : M W value :=
  parts <~ with_audio (local_parts text images system_prompt) audio_file ;;
  response <~ generate_content parts ;;
  t <~ lift (response_text response) ;;
  ret (VDict
         [("response", VStr t);
          ("metadata",
           VDict [("model", VStr _model_name);
                  ("finish_reason",
                   match candidates response with
                   | c :: _ => VStr c
                   | [] => VNone
                   end)])]).

Definition send_message (text : string) (images : option (list image))
  (audio_file : option string) (system_prompt : option string) : M W value :=
  try_exceptM (send_message_try text images audio_file system_prompt)
    [(Exception, fun e => ret (error_reply e))].

(** The [for chunk in response] loop: a chunk is yielded when its text is
    non-empty; the loop stops at the first exception. *)
Fixpoint drain (cs : list (result string)) (fin : option exn)
  : list string * result unit :=
  match cs with
  | [] => ([], match fin with None => Ok tt | Some e => Raise e end)
  | Raise e :: _ => ([], Raise e)
  | Ok t :: cs' =>
      let (ys, r) := drain cs' fin in
      ((if str_is_empty t then [] else [t]) ++ ys, r)%list
  end.

Definition stream_body (text : string) (images : option (list image))
  (audio_file : option string) (system_prompt : option string) : G W :=
  fun w =>
    match (parts <~ with_audio (local_parts text images system_prompt) audio_file ;;
           generate_content_stream parts) w with
    | (Raise e, w') => ([], Raise e, w')
    | (Ok s, w') => (drain (chunks s) (stream_end s), w')
    end.

Definition error_chunk (e : exn) : string :=
  LF ++ LF ++ "Error: " ++ exn_msg e.

Definition stream_response (text : string) (images : option (list image))
  (audio_file : option string) (system_prompt : option string) : G W :=
  try_except_yield (stream_body text images audio_file system_prompt)
    Exception error_chunk.

Definition schema_instruction (json_schema : value) : string :=
  LF ++ LF ++ "Respond ONLY with valid JSON matching this schema:" ++ LF
  ++ "```json" ++ LF ++ py_str json_schema ++ LF ++ "```".

Definition error_mapping (e : exn) : value :=
  VDict [("error", VStr (exn_msg e))].

(** The [try] block of [send_with_json_output]. *)
Definition send_with_json_output_try (text : string) (json_schema : value)
  (images : option (list image)) : M W value :=
  let parts :=
    (PText (text ++ schema_instruction json_schema)
     :: (if opt_list_truthy images then map PImage (opt_list_items images) else []))%list in
  response <~ generate_content parts ;;
  t <~ lift (response_text response) ;;
  lift (BaseLLMProvider.parse_structured_output t).

Definition send_with_json_output (text : string) (json_schema : value)
  (images : option (list image)) : M W value :=
  try_exceptM (send_with_json_output_try text json_schema images)
    [(Exception, fun e => ret (error_mapping e))].

End Methods.
End GeminiProvider.

(** ** The Anthropic SDK as the Claude provider sees it *)

Module Anthropic.

(** A completed message: the [text] accessor of each content block (a
    block of another kind has none), the stop reason and the usage. *)
Record message : Type := {
  message_content : list (result string);
  stop_reason : value;
  input_tokens : Z;
  output_tokens : Z
}.

Record text_stream : Type := {
  text_chunks : list string;
  text_stream_end : option exn
}.

(** Both calls take the keyword arguments as one mapping. *)
Class Api (W : Type) : Type := {
  messages_create : value -> M W message;
  messages_stream : value -> M W text_stream
}.

(** PIL's PNG encoder followed by base64. *)
Class Png (image : Type) : Type := { png_base64 : image -> result string }.

End Anthropic.

(** ** claude_provider.py *)

Module ClaudeProvider.
Import Anthropic.
Section Methods.
Context {W image : Type} `{Api W} `{Png image} `{Json} `{Repr}.
Variable _model_name : string.

Definition _image_to_base64 (img : image) : result (string * string) :=
  img_base64 <- png_base64 img ;; Ok (img_base64, "image/png").

Definition image_block (img : image) : result value :=
  p <- _image_to_base64 img ;;
  Ok (VDict [("type", VStr "image");
             ("source", VDict [("type", VStr "base64");
                               ("media_type", VStr (snd p));
                               ("data", VStr (fst p))])]).

Definition text_block (t : string) : value :=
  VDict [("type", VStr "text"); ("text", VStr t)].

(** The [for img in images] loop: stops at the first image that cannot be
    encoded. *)
Fixpoint image_blocks (imgs : list image) : result (list value) :=
  match imgs with
  | [] => Ok []
  | i :: rest =>
      b <- image_block i ;;
      bs <- image_blocks rest ;;
      Ok (b :: bs)
  end.

Definition audio_note (audio_file : string) : string :=
  LF ++ "[Audio file provided: " ++ audio_file
  ++ ". Please note: audio processing requires transcription first.]".

Definition message_params (content : list value)
  (system_prompt : option string) : value :=
  VDict ([("model", VStr _model_name);
          ("max_tokens", VInt 4096);
          ("messages", VList [VDict [("role", VStr "user");
                                     ("content", VList content)]])]
         ++ (if opt_str_truthy system_prompt
             then [("system", VStr (opt_str_text system_prompt))]
             else []))%list.

Definition error_reply (e : exn) : value :=
  VDict [("response", VStr ("Error: " ++ exn_msg e));
         ("metadata", VDict [("error", VStr (exn_msg e))])].

(** The [try] block of [send_message]. *)
Definition send_message_try (text : string) (images : option (list image))
  (audio_file : option string) (system_prompt : option string) : M W value :=
  imgs <~ lift (if opt_list_truthy images
                then image_blocks (opt_list_items images) else Ok []) ;;
  let content :=
    (imgs
     ++ (if str_is_empty text then [] else [text_block text])
     ++ (if opt_str_truthy audio_file
         then [text_block (audio_note (opt_str_text audio_file))] else []))%list in
  response <~ messages_create (message_params content system_prompt) ;;
  t <~ lift (match message_content response with
             | b :: _ => b
             | [] => Raise (mk_exn IndexError "list index out of range")
             end) ;;
  ret (VDict
         [("response", VStr t);
          ("metadata",
           VDict [("model", VStr _model_name);
                  ("stop_reason", stop_reason response);
                  ("usage",
                   VDict [("input_tokens", VInt (input_tokens response));
                          ("output_tokens", VInt (output_tokens response))])])]).

Definition send_message (text : string) (images : option (list image))
  (audio_file : option string) (system_prompt : option string) : M W value :=
  try_exceptM (send_message_try text images audio_file system_prompt)
    [(Exception, fun e => ret (error_reply e))].

Definition stream_body (text : string) (images : option (list image))
  (system_prompt : option string) : G W :=
  fun w =>
    match (imgs <~ lift (if opt_list_truthy images
                         then image_blocks (opt_list_items images) else Ok []) ;;
           let content :=
             (imgs ++ (if str_is_empty text then [] else [text_block text]))%list in
           messages_stream (message_params content system_prompt)) w with
    | (Raise e, w') => ([], Raise e, w')
    | (Ok s, w') =>
        (text_chunks s,
         match text_stream_end s with None => Ok tt | Some e => Raise e end,
         w')
    end.

Definition error_chunk (e : exn) : string :=
  LF ++ LF ++ "Error: " ++ exn_msg e.

(** [audio_file] is accepted and not used. *)
Definition stream_response (text : string) (images : option (list image))
  (audio_file : option string) (system_prompt : option string) : G W :=
  try_except_yield (stream_body text images system_prompt)
    Exception error_chunk.

Definition schema_prompt (text : string) (json_schema : value) : string :=
  text ++ LF ++ LF ++ "Respond ONLY with valid JSON matching this schema:" ++ LF
  ++ "```json" ++ LF ++ py_str json_schema ++ LF ++ "```".

Definition error_mapping (e : exn) : value :=
  VDict [("error", VStr (exn_msg e))].

(** The [try] block of [send_with_json_output]. *)
Definition send_with_json_output_try (text : string) (json_schema : value)
  (images : option (list image)) : M W value :=
  response <~ send_message (schema_prompt text json_schema) images None None ;;
  r <~ lift (dict_item response "response") ;;
  t <~ lift (as_str r) ;;
  lift (BaseLLMProvider.parse_structured_output t).

Definition send_with_json_output (text : string) (json_schema : value)
  (images : option (list image)) : M W value :=
  try_exceptM (send_with_json_output_try text json_schema images)
    [(Exception, fun e => ret (error_mapping e))].

End Methods.
End ClaudeProvider.

(** ** smart_provider.py *)

Module SmartGeminiProvider.
Import Genai.

Fixpoint join_lf (ls : list string) : string :=
  match ls with
  | [] => EmptyString
  | [l] => l
  | l :: rest => l ++ LF ++ join_lf rest
  end.

Definition system_instruction : string :=
  join_lf
    [EmptyString;
     "        You are an expert analyst. Analyze the provided image(s).";
     "        ";
     "        STEP 1: CLASSIFY THE PROBLEM TYPE";
     "        - 'coding': Code snippets, IDEs, programming errors.";
     "        - 'multiple_choice': Quizzes with options.";
     "        - 'math': Equations, calculus, geometry.";
     "        - 'general': Text questions, logic, etc.";
     "        ";
     "        STEP 2: EXTRACT DATA";
     "        Return a valid JSON object with:";
     "        {";
     "          " ++ DQUOTE ++ "problem_type" ++ DQUOTE ++ ": " ++ DQUOTE ++ "..." ++ DQUOTE ++ ",";
     "          " ++ DQUOTE ++ "problem_statement" ++ DQUOTE ++ ": " ++ DQUOTE ++ "Full extracted text of the problem" ++ DQUOTE ++ ",";
     "          " ++ DQUOTE ++ "details" ++ DQUOTE ++ ": {";
     "             " ++ DQUOTE ++ "language" ++ DQUOTE ++ ": " ++ DQUOTE ++ "python/js/etc (if coding)" ++ DQUOTE ++ ",";
     "             " ++ DQUOTE ++ "code_snippet" ++ DQUOTE ++ ": " ++ DQUOTE ++ "extracted code (if coding)" ++ DQUOTE ++ ",";
     "             " ++ DQUOTE ++ "options" ++ DQUOTE ++ ": [] (if multiple choice),";
     "             " ++ DQUOTE ++ "context" ++ DQUOTE ++ ": " ++ DQUOTE ++ "..." ++ DQUOTE ++ " ";
     "          }";
     "        }";
     "        "].

Definition string_type : value := VDict [("type", VStr "string")].

Definition extraction_schema : value :=
  VDict
    [("type", VStr "object");
     ("properties",
      VDict
        [("problem_type",
          VDict [("type", VStr "string");
                 ("enum", VList [VStr "coding"; VStr "multiple_choice";
                                 VStr "math"; VStr "general"])]);
         ("problem_statement", string_type);
         ("details", VDict [("type", VStr "object")])]);
     ("required",
      VList [VStr "problem_type"; VStr "problem_statement"; VStr "details"])].

Definition coding_role_prompt : string :=
  "You are a Senior Software Engineer. Provide an optimal code solution.".

Definition coding_output_desc : string :=
  "Return JSON with these exact keys:" ++ LF
  ++ "- 'algorithm_steps': Clear, numbered steps of the algorithm." ++ LF
  ++ "- 'code': The full solution code (no markdown fences in JSON)." ++ LF
  ++ "- 'time_complexity': Big O notation with brief explanation." ++ LF
  ++ "- 'space_complexity': Big O notation with brief explanation." ++ LF
  ++ "- 'edge_cases': A list of edge cases considered." ++ LF.

Definition coding_solution_schema : value :=
  VDict
    [("type", VStr "object");
     ("properties",
      VDict
        [("solution",
          VDict
            [("type", VStr "object");
             ("properties",
              VDict
                [("algorithm_steps", string_type);
                 ("code", string_type);
                 ("time_complexity", string_type);
                 ("space_complexity", string_type);
                 ("edge_cases",
                  VDict [("type", VStr "array"); ("items", string_type)])]);
             ("required",
              VList [VStr "algorithm_steps"; VStr "code";
                     VStr "time_complexity"; VStr "space_complexity";
                     VStr "edge_cases"])])])].

Definition other_role_prompt : string :=
  "You are a helpful expert assistant.".

Definition other_output_desc : string :=
  "Return JSON: { 'solution': { 'answer': '...', 'reasoning': '...' } }".

Definition other_solution_schema : value :=
  VDict
    [("type", VStr "object");
     ("properties",
      VDict
        [("solution",
          VDict
            [("type", VStr "object");
             ("properties",
              VDict [("answer", string_type); ("reasoning", string_type)]);
             ("required", VList [VStr "answer"; VStr "reasoning"])])])].

Definition solution_prompt (role_prompt context_str output_desc : string)
  : string :=
  join_lf [EmptyString; "        "] ++ role_prompt
  ++ join_lf [EmptyString; "        ";
              "        PROBLEM CONTEXT (TOON Format):"; "        "]
  ++ context_str
  ++ join_lf [EmptyString; "        "; "        TASK:";
              "        Solve the problem above."; "        "]
  ++ output_desc
  ++ join_lf [EmptyString; "        "].

(** [s.upper()] and [s.strip()] exist on strings only. *)
Definition upper_method (v : value) : result string :=
  match v with
  | VStr s => Ok (str_upper s)
  | _ => Raise (attribute_error "object has no attribute 'upper'")
  end.

Definition strip_method (v : value) : result string :=
  match v with
  | VStr s => Ok (str_strip s)
  | _ => Raise (attribute_error "object has no attribute 'strip'")
  end.

Section Renderer.
Context `{Repr}.

Definition badge (upper_ptype : string) : string :=
  "**Type:** `" ++ upper_ptype ++ "`" ++ LF ++ LF.

Definition bullet (ec : value) : string := "- " ++ py_str ec ++ LF.

Definition fence_wrap (lang code : value) : string :=
  "``` " ++ py_str lang ++ LF ++ py_str code ++ LF ++ "```".

Definition _format_solution_markdown (solution_data problem_info : value)
  : result string :=
  sol <- dict_get solution_data "solution" (VDict []) ;;
  ptype <- dict_get problem_info "problem_type" (VStr "general") ;;
  up <- upper_method ptype ;;
  let markdown_out := badge up in
  if eq_str ptype "coding" then
    steps <- dict_get sol "algorithm_steps" (VStr EmptyString) ;;
    markdown_out <-
      (if truthy steps then
         Ok (markdown_out ++ "### Algorithm Steps" ++ LF ++ py_str steps ++ LF ++ LF)
       else
         reasoning <- dict_get sol "reasoning" VNone ;;
         if truthy reasoning then
           Ok (markdown_out ++ "### Algorithm Steps" ++ LF
               ++ py_str reasoning ++ LF ++ LF)
         else Ok markdown_out) ;;
    edge_cases <- dict_get sol "edge_cases" (VList []) ;;
    markdown_out <-
      (if truthy edge_cases then
         items <- py_iter edge_cases ;;
         Ok (markdown_out ++ "### Edge Cases" ++ LF
             ++ String.concat EmptyString (map bullet items) ++ LF)
       else Ok markdown_out) ;;
    code <- dict_get sol "code" (VStr EmptyString) ;;
    code <- (if truthy code then Ok code
             else dict_get sol "answer" (VStr EmptyString)) ;;
    markdown_out <-
      (if truthy code then
         details <- dict_get problem_info "details" (VDict []) ;;
         lang <- dict_get details "language" (VStr "python") ;;
         stripped <- strip_method code ;;
         let code :=
           if str_startswith stripped "```" then code
           else VStr (fence_wrap lang code) in
         Ok (markdown_out ++ "### Code Section" ++ LF ++ py_str code ++ LF ++ LF)
       else Ok markdown_out) ;;
    tc <- dict_get sol "time_complexity" VNone ;;
    sc <- dict_get sol "space_complexity" VNone ;;
    Ok (if truthy tc || truthy sc then
          markdown_out ++ "### Complexity" ++ LF
          ++ (if truthy tc then "- **Time**: " ++ py_str tc ++ LF else EmptyString)
          ++ (if truthy sc then "- **Space**: " ++ py_str sc ++ LF else EmptyString)
          ++ LF
        else markdown_out)
  else
    answer <- dict_get sol "answer" (VStr EmptyString) ;;
    reasoning <- dict_get sol "reasoning" (VStr EmptyString) ;;
    Ok (markdown_out
        ++ (if truthy reasoning
            then "### Analysis" ++ LF ++ py_str reasoning ++ LF ++ LF
            else EmptyString)
        ++ (if truthy answer
            then "### Solution" ++ LF ++ py_str answer
            else EmptyString)).

End Renderer.

Section Methods.
Context {W image file : Type} `{Api W image file} `{Json} `{Repr} `{ToonFormat}.
Variable _model_name : string.

(** [self.send_with_json_output] as it resolves on the instance. *)
Variable self_send_with_json_output :
  string -> value -> option (list image) -> M W value.

Definition _step_classify_and_extract (user_prompt : string)
  (images : option (list image)) : M W value :=
  self_send_with_json_output
    (system_instruction ++ LF ++ LF ++ "User Note: " ++ user_prompt)
    extraction_schema images.

Definition _step_generate_solution (problem_info : value) : M W value :=
  ptype <~ lift (dict_get problem_info "problem_type" (VStr "general")) ;;
  context_str <~ lift (ToonFormatter.encode_toon problem_info) ;;
  if eq_str ptype "coding" then
    self_send_with_json_output
      (solution_prompt coding_role_prompt context_str coding_output_desc)
      coding_solution_schema None
  else
    self_send_with_json_output
      (solution_prompt other_role_prompt context_str other_output_desc)
      other_solution_schema None.

(** The second schema call as issued for everything that is not "coding". *)
Definition other_call (context_str : string) : M W value :=
  self_send_with_json_output
    (solution_prompt other_role_prompt context_str other_output_desc)
    other_solution_schema None.

Definition super_send_message :=
  GeminiProvider.send_message (W:=W) (image:=image) (file:=file) _model_name.

Definition smart_flow (text : string) (images : option (list image))
  : M W value :=
  problem_info <~ _step_classify_and_extract text images ;;
  solution_data <~ _step_generate_solution problem_info ;;
  final_markdown <~ lift (_format_solution_markdown solution_data problem_info) ;;
  ret (VDict [("response", VStr final_markdown);
              ("metadata",
               VDict [("model", VStr _model_name);
                      ("problem_info", problem_info);
                      ("raw_solution", solution_data)])]).

Definition send_message_via (text : string) (images : option (list image))
  (audio_file : option string) (system_prompt : option string) : M W value :=
  if negb (opt_list_truthy images) then
    super_send_message text images audio_file system_prompt
  else
    try_exceptM (smart_flow text images)
      [(Exception,
        fun _ => super_send_message text images audio_file system_prompt)].

End Methods.

(** The class as written: the schema call is the one inherited from
    [GeminiProvider]. *)
Section Instance.
Context {W image file : Type} `{Api W image file} `{Json} `{Repr} `{ToonFormat}.
Variable _model_name : string.

Definition inherited_schema_call
  : string -> value -> option (list image) -> M W value :=
  GeminiProvider.send_with_json_output (W:=W) (image:=image) (file:=file).

Definition send_message : string -> option (list image) -> option string
  -> option string -> M W value :=
  send_message_via _model_name inherited_schema_call.

End Instance.

End SmartGeminiProvider.

(** ** Vocabulary of the contract *)

Module Contract.

(** The four problem types of the extraction schema. *)
Definition known_problem_type (p : string) : bool :=
  String.eqb p "coding" || String.eqb p "multiple_choice"
  || String.eqb p "math" || String.eqb p "general".

(** [reply['metadata'].get(k)], with [None] for a missing key. *)
Definition metadata_key (reply : value) (k : string) : option value :=
  match reply with
  | VDict d =>
      match lookup "metadata" d with
      | Some (VDict md) => lookup k md
      | _ => None
      end
  | _ => None
  end.

(** The outcome [r] of the pipeline is the outcome [plain] of a plain call,
    and the reply carries none of the pipeline's metadata. *)
Definition degraded {W} (r plain : result value * W) : Prop :=
  r = plain
  /\ exists v, fst plain = Ok v
               /\ metadata_key v "problem_info" = None
               /\ metadata_key v "raw_solution" = None.


(** [sub in s] for every [sub] of a list. *)
Definition mentions_any (subs : list string) (s : string) : bool :=
  existsb (fun sub => str_contains sub s) subs.

End Contract.

(** ** Reference collaborators

    Executable stand-ins for the outside world, used to run the model on
    concrete inputs: a JSON codec for the ASCII fragment with integer
    numbers, Python's [repr] on that fragment, and scripted backends that
    answer each call with the next prepared reply. *)

Module Reference.

Definition digit_of (c : ascii) : option Z :=
  let n := nat_of_ascii c in
  if ((48 <=? n) && (n <=? 57))%nat then Some (Z.of_nat (n - 48)) else None.

Definition hex_of (c : ascii) : option nat :=
  let n := nat_of_ascii c in
  if ((48 <=? n) && (n <=? 57))%nat then Some (n - 48)%nat
  else if ((97 <=? n) && (n <=? 102))%nat then Some (n - 87)%nat
  else if ((65 <=? n) && (n <=? 70))%nat then Some (n - 55)%nat
  else None.

Definition hex_digit (n : nat) : ascii :=
  if (n <? 10)%nat then ascii_of_nat (48 + n) else ascii_of_nat (87 + n).

Fixpoint skip_ws (s : string) : string :=
  match s with
  | String c s' =>
      let n := nat_of_ascii c in
      if ((n =? 32) || (n =? 9) || (n =? 10) || (n =? 13))%nat
      then skip_ws s' else s
  | EmptyString => EmptyString
  end.

(** Digits of a number, most significant first. *)
Fixpoint read_digits (s : string) (acc : Z) : Z * string :=
  match s with
  | String c s' =>
      match digit_of c with
      | Some d => read_digits s' (10 * acc + d)
      | None => (acc, s)
      end
  | EmptyString => (acc, s)
  end.

(** An integer literal: an optional minus sign, then zero alone or a
    non-zero digit and more digits; a fraction or an exponent after it
    makes the number a float, which the fragment does not have. *)
Definition read_int (s : string) : option (Z * string) :=
  let (neg, body) :=
    match s with
    | String "-"%char r => (true, r)
    | _ => (false, s)
    end in
  match body with
  | String c r =>
      match digit_of c with
      | None => None
      | Some d =>
          let (n, rest) := if d =? 0 then (0, r) else read_digits r d in
          match rest with
          | String "."%char _ | String "e"%char _ | String "E"%char _ => None
          | _ => Some (if neg then - n else n, rest)
          end
      end
  | EmptyString => None
  end.

(** The body of a string literal, after the opening quote. *)
Fixpoint read_string (s : string) : option (string * string) :=
  match s with
  | EmptyString => None
  | String "034"%char rest => Some (EmptyString, rest)
  | String "\"%char (String e rest) =>
      let plain (c : ascii) (k : string) :=
        match read_string k with
        | Some (t, r) => Some (String c t, r)
        | None => None
        end in
      match e with
      | "034"%char => plain "034"%char rest
      | "\"%char => plain "\"%char rest
      | "/"%char => plain "/"%char rest
      | "b"%char => plain "008"%char rest
      | "f"%char => plain "012"%char rest
      | "n"%char => plain "010"%char rest
      | "r"%char => plain "013"%char rest
      | "t"%char => plain "009"%char rest
      | "u"%char =>
          match rest with
          | String a (String b (String c (String d rest'))) =>
              match hex_of a, hex_of b, hex_of c, hex_of d with
              | Some 0%nat, Some 0%nat, Some x, Some y =>
                  match read_string rest' with
                  | Some (t, r) => Some (String (ascii_of_nat (16 * x + y)) t, r)
                  | None => None
                  end
              | _, _, _, _ => None
              end
          | _ => None
          end
      | _ => None
      end
  | String c rest =>
      if (nat_of_ascii c <? 32)%nat then None
      else match read_string rest with
           | Some (t, r) => Some (String c t, r)
           | None => None
           end
  end.

(** [d[k] = v]: an existing key keeps its place. *)
Fixpoint dict_set (d : list (string * value)) (k : string) (v : value)
  : list (string * value) :=
  match d with
  | [] => [(k, v)]
  | (k', v') :: d' =>
      if String.eqb k k' then (k, v) :: d' else (k', v') :: dict_set d' k v
  end.

Fixpoint read_value (fuel : nat) (s : string) : option (value * string) :=
  match fuel with
  | O => None
  | S f =>
      match skip_ws s with
      | String "["%char r =>
          match skip_ws r with
          | String "]"%char r' => Some (VList [], r')
          | r' => read_items f r' []
          end
      | String "{"%char r =>
          match skip_ws r with
          | String "}"%char r' => Some (VDict [], r')
          | r' => read_members f r' []
          end
      | String "034"%char r =>
          match read_string r with
          | Some (t, r') => Some (VStr t, r')
          | None => None
          end
      | String "n"%char (String "u"%char (String "l"%char (String "l"%char r))) =>
          Some (VNone, r)
      | String "t"%char (String "r"%char (String "u"%char (String "e"%char r))) =>
          Some (VBool true, r)
      | String "f"%char (String "a"%char (String "l"%char
          (String "s"%char (String "e"%char r)))) =>
          Some (VBool false, r)
      | s' =>
          match read_int s' with
          | Some (n, r) => Some (VInt n, r)
          | None => None
          end
      end
  end
with read_items (fuel : nat) (s : string) (acc : list value)
  : option (value * string) :=
  match fuel with
  | O => None
  | S f =>
      match read_value f s with
      | None => None
      | Some (v, r) =>
          match skip_ws r with
          | String ","%char r' => read_items f r' (v :: acc)
          | String "]"%char r' => Some (VList (rev (v :: acc)), r')
          | _ => None
          end
      end
  end
with read_members (fuel : nat) (s : string) (acc : list (string * value))
  : option (value * string) :=
  match fuel with
  | O => None
  | S f =>
      match skip_ws s with
      | String "034"%char r =>
          match read_string r with
          | None => None
          | Some (k, r1) =>
              match skip_ws r1 with
              | String ":"%char r2 =>
                  match read_value f r2 with
                  | None => None
                  | Some (v, r3) =>
                      match skip_ws r3 with
                      | String ","%char r4 => read_members f r4 (dict_set acc k v)
                      | String "}"%char r4 => Some (VDict (dict_set acc k v), r4)
                      | _ => None
                      end
                  end
              | _ => None
              end
          end
      | _ => None
      end
  end.

(** [json.loads]: one value, surrounded by nothing but whitespace. *)
Definition loads (s : string) : option value :=
  match read_value (2 * String.length s + 2) s with
  | Some (v, r) => if str_is_empty (skip_ws r) then Some v else None
  | None => None
  end.

(** [json.dumps(_, indent=2)] with the default [ensure_ascii]. *)
Definition escape_char (c : ascii) : string :=
  let n := nat_of_ascii c in
  if (n =? 34)%nat then "\" ++ DQUOTE
  else if (n =? 92)%nat then "\\"
  else if (n =? 10)%nat then "\n"
  else if (n =? 13)%nat then "\r"
  else if (n =? 9)%nat then "\t"
  else if (n =? 8)%nat then "\b"
  else if (n =? 12)%nat then "\f"
  else if ((32 <=? n) && (n <=? 126))%nat then String c EmptyString
  else "\u00" ++ String (hex_digit (n / 16)) (String (hex_digit (n mod 16)) EmptyString).

Fixpoint escape (s : string) : string :=
  match s with
  | EmptyString => EmptyString
  | String c s' => escape_char c ++ escape s'
  end.

Definition quoted (s : string) : string := DQUOTE ++ escape s ++ DQUOTE.

Definition decimal (n : Z) : string :=
  NilZero.string_of_int (Z.to_int n).

Fixpoint indent (level : nat) : string :=
  match level with
  | O => EmptyString
  | S l => "  " ++ indent l
  end.

Fixpoint dumps_at (level : nat) (v : value) : string :=
  match v with
  | VNone => "null"
  | VBool true => "true"
  | VBool false => "false"
  | VInt n => decimal n
  | VStr s => quoted s
  | VList [] => "[]"
  | VList l =>
      "[" ++ LF ++ indent (S level)
      ++ String.concat ("," ++ LF ++ indent (S level))
           (map (fun x => dumps_at (S level) x) l)
      ++ LF ++ indent level ++ "]"
  | VDict [] => "{}"
  | VDict d =>
      "{" ++ LF ++ indent (S level)
      ++ String.concat ("," ++ LF ++ indent (S level))
           (map (fun kv => quoted (fst kv) ++ ": " ++ dumps_at (S level) (snd kv)) d)
      ++ LF ++ indent level ++ "}"
  end.

Definition dumps_indent2 (v : value) : string := dumps_at 0 v.

Definition json : Json := {|
  json_decode := loads;
  json_decode_error := fun _ => "Expecting value";
  json_dumps_indent2 := dumps_indent2
|}.

(** [repr]: strings in single quotes unless they hold one and no double
    quote. *)
Definition repr_char (q : ascii) (c : ascii) : string :=
  let n := nat_of_ascii c in
  if Ascii.eqb c q then "\" ++ String c EmptyString
  else if (n =? 92)%nat then "\\"
  else if (n =? 10)%nat then "\n"
  else if (n =? 13)%nat then "\r"
  else if (n =? 9)%nat then "\t"
  else if ((32 <=? n) && (n <=? 126))%nat then String c EmptyString
  else "\x" ++ String (hex_digit (n / 16)) (String (hex_digit (n mod 16)) EmptyString).

Fixpoint repr_chars (q : ascii) (s : string) : string :=
  match s with
  | EmptyString => EmptyString
  | String c s' => repr_char q c ++ repr_chars q s'
  end.

Definition repr_str (s : string) : string :=
  let q :=
    if str_contains "'" s && negb (str_contains DQUOTE s)
    then "034"%char else "'"%char in
  String q (repr_chars q s) ++ String q EmptyString.

Fixpoint repr_value (v : value) : string :=
  match v with
  | VNone => "None"
  | VBool true => "True"
  | VBool false => "False"
  | VInt n => decimal n
  | VStr s => repr_str s
  | VList l =>
      "[" ++ String.concat ", " (map (fun x => repr_value x) l) ++ "]"
  | VDict d =>
      "{" ++ String.concat ", "
               (map (fun kv => repr_str (fst kv) ++ ": " ++ repr_value (snd kv)) d)
      ++ "}"
  end.

Definition repr : Repr := {| py_repr := repr_value |}.

(** [toon_format] not installed. *)
Definition toon_missing : ToonFormat := {|
  import_toon_format :=
    Raise (mk_exn ModuleNotFoundError "No module named 'toon_format'")
|}.

(** [toon_format] installed, and both of its functions reject what they
    are given. *)
Definition toon_rejecting : ToonFormat := {|
  import_toon_format :=
    Ok {| toon_encode := fun _ => Raise (mk_exn TypeError "unsupported value");
          toon_decode := fun _ => Raise (mk_exn ValueError "invalid TOON") |}
|}.

(** A scripted Gemini backend: each call consumes the next prepared reply
    and records what it was sent; with nothing prepared the call fails. *)
Record gemini_world : Type := {
  replies : list (result Genai.response);
  streams : list (result Genai.stream);
  sent : list (list (Genai.part nat string))
}.

Definition exhausted : exn := mk_exn RuntimeError "connection refused".

Definition gemini : Genai.Api gemini_world nat string := {|
  Genai.upload_file := fun path w => (Ok path, w);
  Genai.generate_content := fun parts w =>
    match replies w with
    | r :: rest =>
        (r, {| replies := rest; streams := streams w; sent := (sent w ++ [parts])%list |})
    | [] =>
        (Raise exhausted,
         {| replies := []; streams := streams w; sent := (sent w ++ [parts])%list |})
    end;
  Genai.generate_content_stream := fun parts w =>
    match streams w with
    | r :: rest =>
        (r, {| replies := replies w; streams := rest; sent := (sent w ++ [parts])%list |})
    | [] =>
        (Raise exhausted,
         {| replies := replies w; streams := []; sent := (sent w ++ [parts])%list |})
    end
|}.

Definition says (t : string) : result Genai.response :=
  Ok {| Genai.response_text := Ok t; Genai.candidates := ["STOP"] |}.

Definition gemini_script (rs : list (result Genai.response)) : gemini_world :=
  {| replies := rs; streams := []; sent := [] |}.

(** A scripted Claude backend of the same kind. *)
Record claude_world : Type := {
  messages : list (result Anthropic.message);
  text_streams : list (result Anthropic.text_stream)
}.

Definition claude : Anthropic.Api claude_world := {|
  Anthropic.messages_create := fun _ w =>
    match messages w with
    | r :: rest => (r, {| messages := rest; text_streams := text_streams w |})
    | [] => (Raise exhausted, w)
    end;
  Anthropic.messages_stream := fun _ w =>
    match text_streams w with
    | r :: rest => (r, {| messages := messages w; text_streams := rest |})
    | [] => (Raise exhausted, w)
    end
|}.

Definition png : Anthropic.Png nat := {|
  Anthropic.png_base64 := fun _ => Ok "iVBORw0KGgo="
|}.

End Reference.

(** ** Sample inputs *)

Module Samples.

Definition q (s : string) : string := DQUOTE ++ s ++ DQUOTE.


(** A backend that is down, and streams that break after two chunks. *)
Definition outage : exn := mk_exn RuntimeError "503 Service Unavailable".

Definition gemini_down : Reference.gemini_world := {|
  Reference.replies := [Raise outage];
  Reference.streams :=
    [Ok {| Genai.chunks := [Ok "Hel"; Ok "lo"];
           Genai.stream_end := Some outage |}];
  Reference.sent := []
|}.

Definition claude_down : Reference.claude_world := {|
  Reference.messages := [Raise outage];
  Reference.text_streams :=
    [Ok {| Anthropic.text_chunks := ["Hel"; "lo"];
           Anthropic.text_stream_end := Some outage |}]
|}.

(** A backend that is up and replies with a JSON object of its own that
    happens to have the key 'error'. *)
Definition gemini_echo : Reference.gemini_world :=
  Reference.gemini_script
    [Reference.says ("{" ++ q "error" ++ ": " ++ q "503 Service Unavailable" ++ "}")].


(** A classification outside the enum, and an answer to it. *)
Definition physics_reply : string :=
  "{" ++ q "problem_type" ++ ": " ++ q "physics" ++ ", "
  ++ q "problem_statement" ++ ": " ++ q "A ball is dropped from 20 m." ++ ", "
  ++ q "details" ++ ": {}}".

Definition physics_info : value :=
  VDict [("problem_type", VStr "physics");
         ("problem_statement", VStr "A ball is dropped from 20 m.");
         ("details", VDict [])].

Definition answer_reply : string :=
  "```json" ++ LF
  ++ "{" ++ q "solution" ++ ": {" ++ q "answer" ++ ": " ++ q "about 2 s" ++ ", "
  ++ q "reasoning" ++ ": " ++ q "t = sqrt(2h/g)" ++ "}}" ++ LF ++ "```".

Definition answer_data : value :=
  VDict [("solution", VDict [("answer", VStr "about 2 s");
                             ("reasoning", VStr "t = sqrt(2h/g)")])].

Definition physics_world : Reference.gemini_world :=
  Reference.gemini_script
    [Reference.says physics_reply; Reference.says answer_reply].

(** A classification that is no mapping at all. *)
Definition listing_world : Reference.gemini_world :=
  Reference.gemini_script [Reference.says "[1, 2, 3]"; Reference.says "plain answer"].

(** A schema call that lets its exception through. *)
Definition failing_schema_call : string -> value -> option (list nat)
  -> M Reference.gemini_world value :=
  fun _ _ _ w => (Raise outage, w).

Definition screenshot : option (list nat) := Some [7%nat].

(** A classified math problem and a classified coding problem with its
    solution. *)
Definition math_info : list (string * value) :=
  [("problem_type", VStr "math");
   ("problem_statement", VStr "What is 2+2?");
   ("details", VDict [])].

Definition coding_info : list (string * value) :=
  [("problem_type", VStr "coding");
   ("problem_statement", VStr "Reverse a list.");
   ("details", VDict [("language", VStr "js")])].




End Samples.

(** ** A reference deployment

    The providers wired to the reference collaborators. *)

Module Lab.

Definition model : string := "gemini-2.5-flash-lite".

Definition smart :=
  @SmartGeminiProvider.send_message _ nat string
    Reference.gemini Reference.json Reference.repr Reference.toon_missing model.

Definition smart_via :=
  @SmartGeminiProvider.send_message_via _ nat string
    Reference.gemini Reference.json Reference.repr Reference.toon_missing model.

Definition plain := @GeminiProvider.send_message _ nat string Reference.gemini model.

Definition schema_call :=
  @GeminiProvider.send_with_json_output _ nat string
    Reference.gemini Reference.json Reference.repr.

Definition claude_model : string := "claude-3-5-sonnet-20241022".

Definition claude_plain :=
  @ClaudeProvider.send_message _ nat Reference.claude Reference.png claude_model.

Definition claude_schema_call :=
  @ClaudeProvider.send_with_json_output _ nat
    Reference.claude Reference.png Reference.json Reference.repr claude_model.

End Lab.

(** ** toon_formatter.py, the prompt helpers *)

Module ToonPrompt.
Section Functions.
Context `{Json} `{ToonFormat}.





End Functions.
End ToonPrompt.

(** ** config/settings.py *)

Module Settings.

(** [s.split(sep)] for a one-character separator. *)
Fixpoint str_split (sep : ascii) (s : string) : list string :=
  match s with
  | EmptyString => [EmptyString]
  | String c s' =>
      if Ascii.eqb c sep then EmptyString :: str_split sep s'
      else match str_split sep s' with
           | h :: t => String c h :: t
           | [] => [String c EmptyString]
           end
  end.

(** [d[k] = v] on the entries of a dict: an existing key keeps its place,
    a new one goes last. *)
Fixpoint store (d : list (string * value)) (k : string) (v : value)
  : list (string * value) :=
  match d with
  | [] => [(k, v)]
  | (k', v') :: d' =>
      if String.eqb k k' then (k, v) :: d' else (k', v') :: store d' k v
  end.

(** [target[k] = v] with a string key: only a dict takes it. *)
Definition setitem (target : value) (k : string) (v : value) : result value :=
  match target with
  | VDict d => Ok (VDict (store d k v))
  | _ => Raise (mk_exn TypeError "object does not support item assignment")
  end.

(** The Fernet cipher with its base64 wrapping, and the process
    environment. *)
Class Cipher (W : Type) : Type := {
  encrypt_b64 : string -> M W string;
  decrypt_b64 : string -> result string
}.

Class Environ : Type := { getenv : string -> option string }.

(** Writing the configuration file. *)
Class ConfigFile (W : Type) : Type := { write_config : string -> M W unit }.

Definition _get_default_settings : value :=
  VDict
    [("llm",
      VDict [("provider", VStr "gemini");
             ("gemini_api_key_encrypted", VNone);
             ("claude_api_key_encrypted", VNone);
             ("gemini_model", VStr "gemini-2.5-flash-lite");
             ("claude_model", VStr "claude-3-5-sonnet-20241022")]);
     ("ui",
      VDict [("theme", VStr "dark");
             ("window_position", VNone);
             ("window_size", VList [VInt 1400; VInt 900]);
             ("sidebar_width", VInt 250)]);
     ("shortcuts",
      VDict [("screenshot", VStr "Ctrl+H");
             ("hide_window", VStr "Ctrl+B");
             ("send_message", VStr "Ctrl+Enter")]);
     ("privacy", VDict [("click_through_default", VBool false)])].

Section Methods.
Context {W : Type} `{Json} `{Cipher W} `{Environ} `{ConfigFile W}.

(** [_load_settings]: [config] is what the file system shows at the
    configuration path, [None] when nothing is there, otherwise the text
    read or the exception of the read. *)
Definition _load_settings (config : option (result string)) : result value :=
  match config with
  | None => Ok _get_default_settings
  | Some file =>
      try_except (text <- file ;; json_loads text)
        [(Exception, fun _ => Ok _get_default_settings)]
  end.

(** The end of [__init__]: a non-empty [GEMINI_MODEL] goes over the
    loaded settings. *)
Definition override_model (settings : value) : result value :=
  match getenv "GEMINI_MODEL" with
  | Some env_model =>
      if str_is_empty env_model then Ok settings
      else
        match settings with
        | VDict d =>
            let d1 :=
              match lookup "llm" d with
              | Some _ => d
              | None => store d "llm" (VDict [])
              end in
            llm <- dict_item (VDict d1) "llm" ;;
            llm' <- setitem llm "gemini_model" (VStr env_model) ;;
            Ok (VDict (store d1 "llm" llm'))
        | _ => Raise (mk_exn TypeError "settings is not a mapping")
        end
  | None => Ok settings
  end.

(** What [__init__] leaves in [self.settings], once the directory and the
    cipher have been set up: the loaded settings with the override of the
    environment, read after both [load_dotenv] calls. *)
Definition init (config : option (result string)) : result value :=
  settings <- _load_settings config ;; override_model settings.

Definition save (settings : value) : M W unit :=
  try_exceptM (write_config (json_dumps_indent2 settings))
    [(Exception, fun _ => ret tt)].

Definition encrypt_value (value : string) : M W string := encrypt_b64 value.

Definition decrypt_value (encrypted_value : value) : string :=
  match try_except
          (match encrypted_value with
           | VStr s => decrypt_b64 s
           | _ => Raise (attribute_error "object has no attribute 'encode'")
           end)
          [(Exception, fun e => Ok ("Decryption error: " ++ exn_msg e))] with
  | Ok s => s
  | Raise e => "Decryption error: " ++ exn_msg e
  end.

Definition set_api_key (settings : value) (provider api_key : string)
  : M W value :=
  encrypted <~ encrypt_value api_key ;;
  llm <~ lift (dict_item settings "llm") ;;
  llm' <~ lift (setitem llm (provider ++ "_api_key_encrypted") (VStr encrypted)) ;;
  settings' <~ lift (setitem settings "llm" llm') ;;
  _ <~ save settings' ;;
  ret settings'.

Definition get_api_key (settings : value) (provider : string) : result value :=
  llm <- dict_item settings "llm" ;;
  encrypted <- dict_get llm (provider ++ "_api_key_encrypted") VNone ;;
  if truthy encrypted then Ok (VStr (decrypt_value encrypted))
  else
    llm <- dict_item settings "llm" ;;
    plain <- dict_get llm (provider ++ "_api_key") VNone ;;
    if truthy plain then Ok plain
    else
      match getenv (str_upper provider ++ "_API_KEY") with
      | Some env_key => if str_is_empty env_key then Ok VNone else Ok (VStr env_key)
      | None => Ok VNone
      end.

(** The [for key in keys: value = value[key]] loop. *)
Fixpoint walk (value : value) (keys : list string) : result Py.value :=
  match keys with
  | [] => Ok value
  | key :: rest => v <- dict_item value key ;; walk v rest
  end.

Definition get (settings : value) (key_path : string) (default : value)
  : result value :=
  try_except (walk settings (str_split "."%char key_path))
    [(KeyError, fun _ => Ok default); (TypeError, fun _ => Ok default)].

(** The navigation of [set] along [keys[:-1]], missing levels created on
    the way, and the assignment of [keys[-1]] at the end; the mapping that
    comes back is the updated [target]. *)
Fixpoint navigate_and_set (target : value) (parents : list string)
  (last_key : string) (v : value) : result value :=
  match parents with
  | [] => setitem target last_key v
  | key :: rest =>
      match target with
      | VDict d =>
          let child :=
            match lookup key d with
            | Some c => c
            | None => VDict []
            end in
          child' <- navigate_and_set child rest last_key v ;;
          Ok (VDict (store d key child'))
      | _ => Raise (mk_exn TypeError "value on the path is not a mapping")
      end
  end.

Definition set (settings : value) (key_path : string) (v : value) : M W value :=
  let keys := str_split "."%char key_path in
  settings' <~ lift (navigate_and_set settings (removelast keys)
                       (last keys EmptyString) v) ;;
  _ <~ save settings' ;;
  ret settings'.

End Methods.
End Settings.

(** ** utils/file_handler.py *)

Module FileHandler.

Definition lower_ascii (c : ascii) : ascii :=
  let n := nat_of_ascii c in
  if ((65 <=? n) && (n <=? 90))%nat then ascii_of_nat (n + 32) else c.

(** [s.lower()]; letters outside ASCII are left as they are. *)
Fixpoint str_lower (s : string) : string :=
  match s with
  | EmptyString => EmptyString
  | String c s' => String (lower_ascii c) (str_lower s')
  end.

(** [sep.join(parts)] *)
Fixpoint join (sep : string) (parts : list string) : string :=
  match parts with
  | [] => EmptyString
  | [p] => p
  | p :: rest => p ++ sep ++ join sep rest
  end.

Inductive encoding : Type := utf_8 | latin_1.

(** How [open(path, 'r', encoding=...)] followed by [read()] ends: with
    the text, with a [UnicodeDecodeError], or with another exception. *)
Inductive read_outcome : Type :=
| Read (text : string)
| DecodeError (e : exn)
| Failed (e : exn).

(** What the module reads through: [os.path.splitext(path)[1]], the file
    system, and the two document libraries.  [pdf_pages] is the import of
    [pypdf] and the opening of the reader, with the [extract_text] of each
    page; [docx_paragraphs] is the import of [docx] and the opening of the
    document, with the text of each paragraph. *)
Class Files : Type := {
  splitext_ext : string -> string;
  open_read : string -> encoding -> read_outcome;
  pdf_pages : string -> result (list (result string));
  docx_paragraphs : string -> result (list string)
}.

Section Functions.
Context `{Files}.


Definition decimal (n : nat) : string :=
  NilZero.string_of_int (Z.to_int (Z.of_nat n)).

(** The [for i, page in enumerate(reader.pages)] loop, [i] counting from
    the given start. *)
Fixpoint page_parts (i : nat) (pages : list (result string))
  : result (list string) :=
  match pages with
  | [] => Ok []
  | page :: rest =>
      text <- page ;;
      parts <- page_parts (S i) rest ;;
      Ok (("--- Page " ++ decimal (i + 1) ++ " ---" ++ LF ++ text ++ LF) :: parts)
  end.

Definition _read_pdf (file_path : string) : result string :=
  try_except
    (pages <- pdf_pages file_path ;;
     text_parts <- page_parts 0 pages ;;
     Ok (join LF text_parts))
    [(Exception, fun e => Ok ("Error reading PDF: " ++ exn_msg e))].



Definition validate_file_type (file_path : string)
  (allowed_extensions : list string) : bool :=
  let ext := str_lower (splitext_ext file_path) in
  existsb (String.eqb ext) allowed_extensions.

End Functions.
End FileHandler.

(** ** capture/screenshot.py *)

Module Screenshot.

(** A monitor as [mss] describes it. *)
Record monitor : Type := {
  left : Z;
  top : Z;
  width : Z;
  height : Z
}.

Definition contains_point (m : monitor) (x y : Z) : bool :=
  (left m <=? x) && (x <? left m + width m)
  && (top m <=? y) && (y <? top m + height m).

(** The [for i, m in enumerate(..., i)] loop with its [break]. *)
Fixpoint first_containing (ms : list monitor) (i : nat) (x y : Z) : option nat :=
  match ms with
  | [] => None
  | m :: rest =>
      if contains_point m x y then Some i else first_containing rest (S i) x y
  end.

(** The choice of [monitor_idx]: entry 0 of [monitors] is all monitors
    combined and is skipped. *)
Definition choose_monitor (monitors : list monitor)
  (center_point : option (Z * Z)) : nat :=
  match center_point with
  | Some (x, y) =>
      match first_containing (tl monitors) 1 x y with
      | Some i => i
      | None => 1%nat
      end
  | None => 1%nat
  end.

(** The screen-capture library: the monitors it sees, and the grab of one
    of them converted to an image. *)
Class Mss (W image : Type) : Type := {
  monitors : M W (list monitor);
  grab_image : monitor -> M W image
}.

Section Functions.
Context {W image : Type} `{Mss W image}.

Definition capture_screenshot (center_point : option (Z * Z))
  : M W (option image) :=
  try_exceptM
    (ms <~ monitors ;;
     let monitor_idx := choose_monitor ms center_point in
     monitor <~ lift (match nth_error ms monitor_idx with
                      | Some m => Ok m
                      | None => Raise (mk_exn IndexError "list index out of range")
                      end) ;;
     img <~ grab_image monitor ;;
     ret (Some img))
    [(Exception, fun _ => ret None)].

Definition capture_region (x y w h : Z) : M W (option image) :=
  try_exceptM
    (img <~ grab_image {| left := x; top := y; width := w; height := h |} ;;
     ret (Some img))
    [(Exception, fun _ => ret None)].

End Functions.
End Screenshot.

(** ** The requests of the pipeline

    What [SmartGeminiProvider], with the schema call it inherits, sends to
    the model in its two stages. *)

Module PipelineRequests.
Import SmartGeminiProvider.
Section WithRepr.
Context {image file : Type} `{Repr}.

Definition stage1_request (user_prompt : string) (images : option (list image))
  : list (Genai.part image file) :=
  (Genai.PText
     ((system_instruction ++ LF ++ LF ++ "User Note: " ++ user_prompt)
      ++ GeminiProvider.schema_instruction extraction_schema)
   :: (if opt_list_truthy images
       then map Genai.PImage (opt_list_items images) else []))%list.

Definition stage2_other_request (context_str : string)
  : list (Genai.part image file) :=
  [Genai.PText
     (solution_prompt other_role_prompt context_str other_output_desc
      ++ GeminiProvider.schema_instruction other_solution_schema)].

End WithRepr.
End PipelineRequests.

(** ** More sample inputs *)

Module MoreSamples.

(** A classification followed by a solution that is a JSON list, and the
    answer of the plain call. *)
Definition list_solution_world : Reference.gemini_world :=
  Reference.gemini_script
    [Reference.says Samples.physics_reply;
     Reference.says "[1, 2, 3]";
     Reference.says "plain answer"].




Definition listed_code : list (string * value) :=
  [("algorithm_steps", VStr "1. Print.");
   ("code", VList [VStr "print(1)"])].

(** Streams that end well and carry an empty chunk. *)
Definition gemini_streaming : Reference.gemini_world := {|
  Reference.replies := [];
  Reference.streams :=
    [Ok {| Genai.chunks := [Ok "Hel"; Ok EmptyString; Ok "lo"];
           Genai.stream_end := None |}];
  Reference.sent := []
|}.

Definition claude_streaming : Reference.claude_world := {|
  Reference.messages := [];
  Reference.text_streams :=
    [Ok {| Anthropic.text_chunks := ["Hel"; EmptyString; "lo"];
           Anthropic.text_stream_end := None |}]
|}.


End MoreSamples.

(** ** Stand-ins for the settings' surroundings *)

Module SettingsLab.

(** The world is the list of texts written to the configuration file, or
    [None] once the disk is read-only. *)
Definition disk : Type := option (list string).

Definition config_file : Settings.ConfigFile disk := {|
  Settings.write_config := fun text w =>
    match w with
    | Some written => (Ok tt, Some (written ++ [text])%list)
    | None => (Raise (mk_exn RuntimeError "Read-only file system"), None)
    end
|}.

(** A toy cipher: a token is the text behind a marker. *)
Definition cipher : Settings.Cipher disk := {|
  Settings.encrypt_b64 := fun text w => (Ok ("gAAAA" ++ text), w);
  Settings.decrypt_b64 := fun token =>
    if str_startswith token "gAAAA" then Ok (str_drop 5 token)
    else Raise (mk_exn ValueError "Invalid token")
|}.

Definition environ : Settings.Environ := {|
  Settings.getenv := fun name =>
    if String.eqb name "GEMINI_MODEL" then Some "gemini-2.5-pro"
    else if String.eqb name "CLAUDE_API_KEY" then Some "sk-from-env"
    else None
|}.

Definition no_environ : Settings.Environ := {|
  Settings.getenv := fun _ => None
|}.

Definition get := @Settings.get.

Definition set :=
  @Settings.set disk Reference.json config_file.

Definition set_api_key :=
  @Settings.set_api_key disk Reference.json cipher config_file.

Definition get_api_key := @Settings.get_api_key disk cipher environ.


End SettingsLab.

(** ** Stand-ins for the file system and the screens *)

Module DeskLab.

(** The extension is what follows the last dot of the name. *)
Fixpoint last_dot (s : string) : option string :=
  match s with
  | EmptyString => None
  | String c s' =>
      match last_dot s' with
      | Some ext => Some ext
      | None => if Ascii.eqb c "."%char then Some s else None
      end
  end.

Definition files : FileHandler.Files := {|
  FileHandler.splitext_ext := fun path =>
    match last_dot path with Some ext => ext | None => EmptyString end;
  FileHandler.open_read := fun path enc =>
    if String.eqb path "notes.txt" then FileHandler.Read "remember the milk"
    else FileHandler.Failed (mk_exn RuntimeError "No such file or directory");
  FileHandler.pdf_pages := fun path =>
    if String.eqb path "paper.PDF"
    then Ok [Ok "Abstract"; Raise (mk_exn ValueError "broken page"); Ok "End"]
    else Ok [Ok "One page"];
  FileHandler.docx_paragraphs := fun _ =>
    Raise (mk_exn ModuleNotFoundError "No module named 'docx'")
|}.

(** Two screens side by side behind the combined entry; the world is the
    list of grabbed monitors. *)
Definition combined : Screenshot.monitor :=
  {| Screenshot.left := 0; Screenshot.top := 0;
     Screenshot.width := 3840; Screenshot.height := 1080 |}.

Definition left_screen : Screenshot.monitor :=
  {| Screenshot.left := 0; Screenshot.top := 0;
     Screenshot.width := 1920; Screenshot.height := 1080 |}.

Definition right_screen : Screenshot.monitor :=
  {| Screenshot.left := 1920; Screenshot.top := 0;
     Screenshot.width := 1920; Screenshot.height := 1080 |}.

Definition desk : list Screenshot.monitor := [combined; left_screen; right_screen].

Definition mss (ms : list Screenshot.monitor)
  : Screenshot.Mss (list Screenshot.monitor) Screenshot.monitor := {|
  Screenshot.monitors := fun w => (Ok ms, w);
  Screenshot.grab_image := fun m w => (Ok m, (w ++ [m])%list)
|}.

End DeskLab.

(** * Properties *)

(** ** Text primitives *)

Module TextFacts.















End TextFacts.

(** ** The structured-output parser *)

Module ParserFacts.
Import BaseLLMProvider TextFacts.

Section WithJson.
Context `{Json}.

(** The parser's answer is decided by one [json.loads] call. *)
Lemma parse_by_candidate (s : string) :
  parse_structured_output s =
  Ok (match json_decode (json_candidate s) with
      | Some v => v
      | None => raw_sentinel s
      end).
Proof.
  unfold parse_structured_output, json_candidate, json_loads.
  destruct (str_contains "```json" s); cbv zeta;
    match goal with
    | |- context [json_decode ?t] => destruct (json_decode t)
    end; reflexivity.
Qed.




End WithJson.



End ParserFacts.

(** ** Exception handlers *)

Module HandlerFacts.

(** An [except Exception] clause leaves nothing to propagate. *)
Lemma try_exceptM_exception {W A} (body : M W A) (k : exn -> M W A) (w : W) :
  try_exceptM body [(Exception, k)] w =
  match body w with
  | (Ok a, w') => (Ok a, w')
  | (Raise e, w') => k e w'
  end.
Proof.
  unfold try_exceptM. destruct (body w) as [[a|e] w']; reflexivity.
Qed.

Lemma try_exceptM_ok {W A} (body : M W A) hs (w w' : W) (a : A) :
  body w = (Ok a, w') -> try_exceptM body hs w = (Ok a, w').
Proof.
  intros Hb. unfold try_exceptM. now rewrite Hb.
Qed.

Lemma try_exceptM_raise {W A} (body : M W A) (k : exn -> M W A)
  (w w' : W) (e : exn) :
  body w = (Raise e, w') -> try_exceptM body [(Exception, k)] w = k e w'.
Proof.
  intros Hb. rewrite try_exceptM_exception. now rewrite Hb.
Qed.

(** With a handler that returns, the whole statement returns. *)
Lemma try_exceptM_returns {W A} (body : M W A) (f : exn -> A) (w : W) :
  exists a w', try_exceptM body [(Exception, fun e => ret (f e))] w = (Ok a, w').
Proof.
  rewrite try_exceptM_exception.
  destruct (body w) as [[a|e] w']; eexists; eexists; reflexivity.
Qed.

Lemma try_except_yield_exception {W} (body : G W) (k : exn -> string) (w : W) :
  try_except_yield body Exception k w =
  match body w with
  | (ys, Ok u, w') => (ys, Ok u, w')
  | (ys, Raise e, w') => ((ys ++ [k e])%list, Ok tt, w')
  end.
Proof.
  unfold try_except_yield. destruct (body w) as [[ys [u|e]] w']; reflexivity.
Qed.

Lemma bindM_ok {W A B} (m : M W A) (k : A -> M W B) (w w' : W) (a : A) :
  m w = (Ok a, w') -> bindM m k w = k a w'.
Proof.
  intros Hm. unfold bindM. now rewrite Hm.
Qed.

Lemma bindM_raise {W A B} (m : M W A) (k : A -> M W B) (w w' : W) (e : exn) :
  m w = (Raise e, w') -> bindM m k w = (Raise e, w').
Proof.
  intros Hm. unfold bindM. now rewrite Hm.
Qed.

End HandlerFacts.

(** ** The plain call and the streaming call *)

Module ProviderFacts.
Import HandlerFacts.

Section Gemini.
Context {W image file : Type} `{Genai.Api W image file}.
Variable model : string.

Lemma gemini_send_message_returns text images audio sp (w : W) :
  exists v w', GeminiProvider.send_message model text images audio sp w = (Ok v, w').
Proof.
  apply try_exceptM_returns.
Qed.

Lemma gemini_send_message_caught text images audio sp (w w' : W) (e : exn) :
  GeminiProvider.send_message_try model text images audio sp w = (Raise e, w') ->
  GeminiProvider.send_message model text images audio sp w
  = (Ok (GeminiProvider.error_reply e), w').
Proof.
  intros Hb. unfold GeminiProvider.send_message.
  now rewrite (try_exceptM_raise _ _ _ _ _ Hb).
Qed.

(** The three places a plain Gemini call can fail: the audio upload, the
    generation request, and reading the text of the response. *)
Lemma gemini_try_fails_on_request text images sp (w w' : W) (e : exn) :
  Genai.generate_content
    (GeminiProvider.local_parts text images sp) w = (Raise e, w') ->
  GeminiProvider.send_message_try model text images None sp w = (Raise e, w').
Proof.
  intros Hg. unfold GeminiProvider.send_message_try, GeminiProvider.with_audio.
  simpl. unfold bindM at 1. unfold ret at 1.
  now rewrite (bindM_raise _ _ _ _ _ Hg).
Qed.

Lemma gemini_try_fails_on_upload text images path sp (w w' : W) (e : exn) :
  opt_str_truthy (Some path) = true ->
  Genai.upload_file path w = (Raise e, w') ->
  GeminiProvider.send_message_try model text images (Some path) sp w
  = (Raise e, w').
Proof.
  intros Hp Hu. unfold GeminiProvider.send_message_try, GeminiProvider.with_audio.
  rewrite Hp. simpl opt_str_text.
  unfold bindM at 1. unfold bindM at 1. now rewrite Hu.
Qed.

Lemma gemini_stream_response_shape text images audio sp (w : W) :
  GeminiProvider.stream_response text images audio sp w =
  match GeminiProvider.stream_body text images audio sp w with
  | (ys, Ok u, w') => (ys, Ok u, w')
  | (ys, Raise e, w') => ((ys ++ [GeminiProvider.error_chunk e])%list, Ok tt, w')
  end.
Proof.
  apply try_except_yield_exception.
Qed.

(** A streaming call that fails before the first chunk yields the
    annotation alone. *)
Lemma gemini_stream_fails_at_request text images sp (w w' : W) (e : exn) :
  Genai.generate_content_stream
    (GeminiProvider.local_parts text images sp) w = (Raise e, w') ->
  GeminiProvider.stream_response text images None sp w
  = ([GeminiProvider.error_chunk e], Ok tt, w').
Proof.
  intros Hg. rewrite gemini_stream_response_shape.
  unfold GeminiProvider.stream_body, GeminiProvider.with_audio.
  cbn [opt_str_truthy]. unfold bindM at 1. unfold ret at 1.
  now rewrite Hg.
Qed.

(** A stream that breaks after some chunks: what was read is yielded,
    then the body fails. *)
Lemma drain_broken (ts : list string) (e : exn) :
  GeminiProvider.drain (map Ok ts) (Some e)
  = (filter (fun t => negb (str_is_empty t)) ts, Raise e).
Proof.
  induction ts as [|t ts IH]; simpl; [reflexivity|].
  rewrite IH. now destruct (str_is_empty t).
Qed.

(** A streaming call that breaks midway yields the chunks it read, then
    the annotation. *)
Lemma gemini_stream_breaks_midway text images sp (w w' : W)
  (s : Genai.stream) (ts : list string) (e : exn) :
  Genai.generate_content_stream
    (GeminiProvider.local_parts text images sp) w = (Ok s, w') ->
  Genai.chunks s = map Ok ts ->
  Genai.stream_end s = Some e ->
  GeminiProvider.stream_response text images None sp w
  = ((filter (fun t => negb (str_is_empty t)) ts
      ++ [GeminiProvider.error_chunk e])%list, Ok tt, w').
Proof.
  intros Hg Hcs Hend. rewrite gemini_stream_response_shape.
  unfold GeminiProvider.stream_body, GeminiProvider.with_audio.
  cbn [opt_str_truthy]. unfold bindM at 1. unfold ret at 1.
  rewrite Hg, Hcs, Hend, drain_broken. reflexivity.
Qed.

End Gemini.

Section Claude.
Context {W image : Type} `{Anthropic.Api W} `{Anthropic.Png image}.
Variable model : string.

Lemma claude_send_message_returns text images audio sp (w : W) :
  exists v w', ClaudeProvider.send_message model text images audio sp w = (Ok v, w').
Proof.
  apply try_exceptM_returns.
Qed.

Lemma claude_send_message_caught text images audio sp (w w' : W) (e : exn) :
  ClaudeProvider.send_message_try model text images audio sp w = (Raise e, w') ->
  ClaudeProvider.send_message model text images audio sp w
  = (Ok (ClaudeProvider.error_reply e), w').
Proof.
  intros Hb. unfold ClaudeProvider.send_message.
  now rewrite (try_exceptM_raise _ _ _ _ _ Hb).
Qed.

Lemma claude_stream_response_shape text images audio sp (w : W) :
  ClaudeProvider.stream_response model text images audio sp w =
  match ClaudeProvider.stream_body model text images sp w with
  | (ys, Ok u, w') => (ys, Ok u, w')
  | (ys, Raise e, w') => ((ys ++ [ClaudeProvider.error_chunk e])%list, Ok tt, w')
  end.
Proof.
  apply try_except_yield_exception.
Qed.

End Claude.

Lemma unit_result_ok (u : unit) : @Ok unit u = Ok tt.
Proof.
  now destruct u.
Qed.

Section Both.
Context {Wg image file : Type} `{Genai.Api Wg image file}.
Context {Wc : Type} `{Anthropic.Api Wc} `{Anthropic.Png image}.
Variable model : string.

(** C6: a plain call never lets a backend exception through.  Whatever
    fails inside [send_message], of either provider, the call returns a
    reply whose text is "Error: " followed by the exception message and
    whose metadata holds that message under the key 'error'. *)
Theorem send_message_absorbs_backend_errors
  text images audio sp (wg : Wg) (wc : Wc) :
  ((exists v w', GeminiProvider.send_message model text images audio sp wg = (Ok v, w'))
   /\ forall e w',
        GeminiProvider.send_message_try model text images audio sp wg = (Raise e, w') ->
        GeminiProvider.send_message model text images audio sp wg
        = (Ok (VDict [("response", VStr ("Error: " ++ exn_msg e));
                      ("metadata", VDict [("error", VStr (exn_msg e))])]), w'))
  /\
  ((exists v w', ClaudeProvider.send_message model text images audio sp wc = (Ok v, w'))
   /\ forall e w',
        ClaudeProvider.send_message_try model text images audio sp wc = (Raise e, w') ->
        ClaudeProvider.send_message model text images audio sp wc
        = (Ok (VDict [("response", VStr ("Error: " ++ exn_msg e));
                      ("metadata", VDict [("error", VStr (exn_msg e))])]), w')).
Proof.
  repeat split.
  - apply gemini_send_message_returns.
  - intros e w' Hb. now apply gemini_send_message_caught.
  - apply claude_send_message_returns.
  - intros e w' Hb. now apply claude_send_message_caught.
Qed.

(** C9: the streaming call hands its consumer a finite list of chunks and
    always ends normally.  When the body fails, before the first chunk or
    between two chunks, the chunks read so far are followed by one last
    chunk, the annotation "\n\nError: " with the exception message. *)
Theorem stream_response_ends_in_band
  text images audio sp (wg : Wg) (wc : Wc) :
  (exists ys w',
      GeminiProvider.stream_response text images audio sp wg = (ys, Ok tt, w')
      /\ forall ys0 e w0,
           GeminiProvider.stream_body text images audio sp wg = (ys0, Raise e, w0) ->
           ys = List.app ys0 [LF ++ LF ++ "Error: " ++ exn_msg e]
           /\ last ys EmptyString = LF ++ LF ++ "Error: " ++ exn_msg e)
  /\
  (exists ys w',
      ClaudeProvider.stream_response model text images audio sp wc = (ys, Ok tt, w')
      /\ forall ys0 e w0,
           ClaudeProvider.stream_body model text images sp wc = (ys0, Raise e, w0) ->
           ys = List.app ys0 [LF ++ LF ++ "Error: " ++ exn_msg e]
           /\ last ys EmptyString = LF ++ LF ++ "Error: " ++ exn_msg e).
Proof.
  split.
  - rewrite gemini_stream_response_shape.
    destruct (GeminiProvider.stream_body text images audio sp wg)
      as [[ys [u|e]] w'].
    + exists ys, w'. rewrite unit_result_ok. split; [reflexivity|].
      intros ys0 e0 w0 Habs. discriminate Habs.
    + eexists. exists w'. split; [reflexivity|].
      intros ys0 e0 w0 Heq. injection Heq as -> -> ->.
      split; [reflexivity|]. apply last_last.
  - rewrite claude_stream_response_shape.
    destruct (ClaudeProvider.stream_body model text images sp wc)
      as [[ys [u|e]] w'].
    + exists ys, w'. rewrite unit_result_ok. split; [reflexivity|].
      intros ys0 e0 w0 Habs. discriminate Habs.
    + eexists. exists w'. split; [reflexivity|].
      intros ys0 e0 w0 Heq. injection Heq as -> -> ->.
      split; [reflexivity|]. apply last_last.
Qed.

End Both.

Lemma send_message_absorbs_backend_errors_witness :
  fst (Lab.plain "hello" None None None Samples.gemini_down)
  = Ok (VDict [("response", VStr "Error: 503 Service Unavailable");
               ("metadata", VDict [("error", VStr "503 Service Unavailable")])])
  /\ fst (Lab.claude_plain "hello" None None None Samples.claude_down)
     = Ok (VDict [("response", VStr "Error: 503 Service Unavailable");
                  ("metadata", VDict [("error", VStr "503 Service Unavailable")])]).
Proof.
  destruct (@send_message_absorbs_backend_errors _ nat string Reference.gemini
              _ Reference.claude Reference.png Lab.model
              "hello" None None None Samples.gemini_down Samples.claude_down)
    as [[_ Hgemini] _].
  destruct (@send_message_absorbs_backend_errors _ nat string Reference.gemini
              _ Reference.claude Reference.png Lab.claude_model
              "hello" None None None Samples.gemini_down Samples.claude_down)
    as [_ [_ Hclaude]].
  split.
  - unfold Lab.plain.
    rewrite (Hgemini Samples.outage
               (snd (Lab.plain "hello" None None None Samples.gemini_down))
               eq_refl).
    reflexivity.
  - unfold Lab.claude_plain.
    rewrite (Hclaude Samples.outage
               (snd (Lab.claude_plain "hello" None None None Samples.claude_down))
               eq_refl).
    reflexivity.
Defined.

Lemma stream_response_ends_in_band_witness :
  fst (fst (@GeminiProvider.stream_response _ nat string Reference.gemini
              "hello" None None None Samples.gemini_down))
  = ["Hel"; "lo"; LF ++ LF ++ "Error: 503 Service Unavailable"]
  /\ fst (fst (@ClaudeProvider.stream_response _ nat Reference.claude Reference.png
                 Lab.claude_model "hello" None None None Samples.claude_down))
     = ["Hel"; "lo"; LF ++ LF ++ "Error: 503 Service Unavailable"].
Proof.
  destruct (@stream_response_ends_in_band _ nat string Reference.gemini
              _ Reference.claude Reference.png Lab.claude_model
              "hello" None None None Samples.gemini_down Samples.claude_down)
    as [(ys & w' & Hg & Hgl) (zs & v' & Hc & Hcl)].
  split.
  - rewrite Hg. cbn [fst].
    destruct (Hgl ["Hel"; "lo"] Samples.outage
                (snd (@GeminiProvider.stream_body _ nat string Reference.gemini
                        "hello" None None None Samples.gemini_down))
                eq_refl) as [-> _].
    reflexivity.
  - rewrite Hc. cbn [fst].
    destruct (Hcl ["Hel"; "lo"] Samples.outage
                (snd (@ClaudeProvider.stream_body _ nat Reference.claude
                        Reference.png Lab.claude_model
                        "hello" None None Samples.claude_down))
                eq_refl) as [-> _].
    reflexivity.
Defined.

End ProviderFacts.

(** ** The TOON helpers *)

Module ToonFacts.
Import ToonFormatter.

Section WithLibraries.
Context `{Json} `{ToonFormat}.




(** The package is missing: [decode_toon] is [json.loads]. *)
Lemma decode_toon_unavailable (s : string) (e : exn) :
  import_toon_format = Raise e ->
  issubclass (exn_cls e) ImportError = true ->
  decode_toon s = json_loads s.
Proof.
  intros Himp Hcls. unfold decode_toon. rewrite Himp.
  cbn [bind try_except dispatch]. now rewrite Hcls.
Qed.

(** The package is there and its decoder fails: [decode_toon] gives [None]. *)
Lemma decode_toon_failure (s : string) (m : toon_module) (e : exn) :
  import_toon_format = Ok m ->
  toon_decode m s = Raise e ->
  issubclass (exn_cls e) ImportError = false ->
  decode_toon s = Ok VNone.
Proof.
  intros Himp Hdec Hcls. unfold decode_toon. rewrite Himp.
  cbn [bind]. rewrite Hdec. cbn [try_except dispatch]. now rewrite Hcls.
Qed.

Lemma decode_toon_success (s : string) (m : toon_module) (v : value) :
  import_toon_format = Ok m ->
  toon_decode m s = Ok v ->
  decode_toon s = Ok v.
Proof.
  intros Himp Hdec. unfold decode_toon. rewrite Himp. simpl. now rewrite Hdec.
Qed.


(** C8, as the code has it: with the package unavailable, [decode_toon]
    returns the JSON value of a text that is JSON; with the package there,
    it returns what the TOON decoder returns, and [None] when that decoder
    fails. *)
Theorem decode_toon_policy (s : string) :
  (forall e v,
      import_toon_format = Raise e ->
      issubclass (exn_cls e) ImportError = true ->
      json_decode s = Some v ->
      decode_toon s = Ok v)
  /\ (forall m e,
        import_toon_format = Ok m ->
        toon_decode m s = Raise e ->
        issubclass (exn_cls e) ImportError = false ->
        decode_toon s = Ok VNone)
  /\ (forall m v,
        import_toon_format = Ok m ->
        toon_decode m s = Ok v ->
        decode_toon s = Ok v).
Proof.
  split; [|split].
  - intros e v Himp Hcls Hv.
    rewrite (decode_toon_unavailable _ e Himp Hcls).
    unfold json_loads. now rewrite Hv.
  - intros m e. apply decode_toon_failure.
  - intros m v. apply decode_toon_success.
Qed.

End WithLibraries.



Lemma decode_toon_policy_witness :
  @decode_toon Reference.json Reference.toon_missing "[1, 2]"
  = Ok (VList [VInt 1; VInt 2])
  /\ @decode_toon Reference.json Reference.toon_rejecting "[1, 2]" = Ok VNone.
Proof.
  destruct (@decode_toon_policy Reference.json Reference.toon_missing "[1, 2]")
    as (Hmissing & _ & _).
  destruct (@decode_toon_policy Reference.json Reference.toon_rejecting "[1, 2]")
    as (_ & Hfails & _).
  split.
  - apply (Hmissing _ _ eq_refl); vm_compute; reflexivity.
  - apply (Hfails _ (mk_exn ValueError "invalid TOON") eq_refl); reflexivity.
Defined.

(** C8 as stated fails twice: a failing TOON decoder yields [None] where
    the JSON parse of the same text is a value, and with the package
    missing a text that is no JSON makes [decode_toon] raise. *)
Lemma decode_toon_counterexample :
  (@decode_toon Reference.json Reference.toon_rejecting "[1, 2]" = Ok VNone
   /\ @json_loads Reference.json "[1, 2]" = Ok (VList [VInt 1; VInt 2]))
  /\ raises (@decode_toon Reference.json Reference.toon_missing "not json at all")
     = true.
Proof.
  repeat split; vm_compute; reflexivity.
Qed.

End ToonFacts.

(** ** The schema-constrained call *)

Module SchemaCallFacts.
Import HandlerFacts.

Section Gemini.
Context {W image file : Type} `{Genai.Api W image file} `{Json} `{Repr}.

Lemma gemini_schema_call_returns text schema images (w : W) :
  exists v w',
    GeminiProvider.send_with_json_output text schema images w = (Ok v, w').
Proof.
  apply try_exceptM_returns.
Qed.

Lemma gemini_schema_call_caught text schema images (w w' : W) (e : exn) :
  GeminiProvider.send_with_json_output_try text schema images w = (Raise e, w') ->
  GeminiProvider.send_with_json_output text schema images w
  = (Ok (VDict [("error", VStr (exn_msg e))]), w').
Proof.
  intros Hb. unfold GeminiProvider.send_with_json_output.
  now rewrite (try_exceptM_raise _ _ _ _ _ Hb).
Qed.

End Gemini.

Section Claude.
Context {W image : Type} `{Anthropic.Api W} `{Anthropic.Png image} `{Json} `{Repr}.
Variable model : string.

(** Every reply of Claude's plain call is a mapping whose 'response' is a
    string. *)
Lemma claude_reply_shape text images audio sp (w w' : W) (v : value) :
  ClaudeProvider.send_message model text images audio sp w = (Ok v, w') ->
  exists t md, v = VDict [("response", VStr t); ("metadata", md)].
Proof.
  unfold ClaudeProvider.send_message. rewrite try_exceptM_exception.
  destruct (ClaudeProvider.send_message_try model text images audio sp w)
    as [[a|e] w1] eqn:Hbody.
  - intros Heq. injection Heq as <- <-.
    unfold ClaudeProvider.send_message_try, bindM, lift, ret in Hbody.
    repeat match type of Hbody with
           | context [match ?x with _ => _ end] => destruct x
           end; try discriminate Hbody;
      injection Hbody as <- <-; eexists; eexists; reflexivity.
  - intros Heq. injection Heq as <- <-. eexists. eexists. reflexivity.
Qed.

(** Claude's schema call is the parser applied to the text of the plain
    call. *)
Lemma claude_schema_call_parses text schema images (w w' : W) t md :
  ClaudeProvider.send_message model
    (ClaudeProvider.schema_prompt text schema) images None None w
  = (Ok (VDict [("response", VStr t); ("metadata", md)]), w') ->
  ClaudeProvider.send_with_json_output model text schema images w
  = (BaseLLMProvider.parse_structured_output t, w').
Proof.
  intros Hs. unfold ClaudeProvider.send_with_json_output.
  rewrite try_exceptM_exception.
  unfold ClaudeProvider.send_with_json_output_try.
  rewrite (bindM_ok _ _ _ _ _ Hs). cbn.
  rewrite ParserFacts.parse_by_candidate. reflexivity.
Qed.

Lemma claude_schema_call_returns text schema images (w : W) :
  exists v w',
    ClaudeProvider.send_with_json_output model text schema images w = (Ok v, w').
Proof.
  apply try_exceptM_returns.
Qed.

(** A backend fault never reaches the handler of the schema call: it
    comes back as the text "Error: ..." and is parsed like any reply. *)
Lemma claude_schema_call_on_fault text schema images (w w' : W) (e : exn) :
  ClaudeProvider.send_message_try model
    (ClaudeProvider.schema_prompt text schema) images None None w
  = (Raise e, w') ->
  ClaudeProvider.send_with_json_output model text schema images w
  = (BaseLLMProvider.parse_structured_output ("Error: " ++ exn_msg e), w').
Proof.
  intros Hb.
  apply (claude_schema_call_parses _ _ _ _ _ _
           (VDict [("error", VStr (exn_msg e))])).
  now apply ProviderFacts.claude_send_message_caught.
Qed.

End Claude.

End SchemaCallFacts.

(** ** The pipeline *)

Module SmartFacts.
Import HandlerFacts SmartGeminiProvider Contract.

Lemma bindM_lift {W A B} (r : result A) (k : A -> M W B) (w : W) :
  bindM (lift r) k w =
  match r with
  | Ok a => k a w
  | Raise e => (Raise e, w)
  end.
Proof.
  unfold bindM, lift. now destruct r.
Qed.

Section Pipeline.
Context {W image file : Type} `{Genai.Api W image file} `{Json} `{Repr} `{ToonFormat}.
Variable model : string.
Variable swjo : string -> value -> option (list image) -> M W value.

(** What a plain Gemini call puts in its metadata: the model and the
    finish reason, or the error. *)
Lemma plain_reply_metadata text images audio sp (w w' : W) (v : value) :
  GeminiProvider.send_message model text images audio sp w = (Ok v, w') ->
  metadata_key v "problem_info" = None /\ metadata_key v "raw_solution" = None.
Proof.
  unfold GeminiProvider.send_message. rewrite try_exceptM_exception.
  destruct (GeminiProvider.send_message_try model text images audio sp w)
    as [[a|e] w1] eqn:Hbody.
  - intros Heq. injection Heq as <- <-.
    unfold GeminiProvider.send_message_try, GeminiProvider.with_audio,
      bindM, lift, ret in Hbody.
    repeat match type of Hbody with
           | context [match ?x with _ => _ end] => destruct x
           end; try discriminate Hbody;
      injection Hbody as <- <-; split; reflexivity.
  - intros Heq. injection Heq as <- <-. split; reflexivity.
Qed.

Lemma plain_call_degraded r text images audio sp (w : W) :
  r = GeminiProvider.send_message model text images audio sp w ->
  degraded r (GeminiProvider.send_message model text images audio sp w).
Proof.
  intros ->. split; [reflexivity|].
  destruct (ProviderFacts.gemini_send_message_returns
              model text images audio sp w) as (v & w' & Hv).
  exists v. rewrite Hv. split; [reflexivity|].
  exact (plain_reply_metadata _ _ _ _ _ _ _ Hv).
Qed.

(** The one recovery boundary: an exception anywhere in the smart flow
    becomes a plain call, made in the world the flow left behind. *)
Lemma smart_flow_raise_degrades text images audio sp (w w' : W) (e : exn) :
  opt_list_truthy images = true ->
  smart_flow model swjo text images w = (Raise e, w') ->
  degraded (send_message_via model swjo text images audio sp w)
           (GeminiProvider.send_message model text images audio sp w').
Proof.
  intros Himg Hflow. apply plain_call_degraded.
  unfold send_message_via. rewrite Himg. cbn [negb].
  now rewrite (try_exceptM_raise _ _ _ _ _ Hflow).
Qed.

Lemma smart_flow_stage1_raises text images (w w1 : W) (e : exn) :
  _step_classify_and_extract swjo text images w = (Raise e, w1) ->
  smart_flow model swjo text images w = (Raise e, w1).
Proof.
  intros Hs. unfold smart_flow. now rewrite (bindM_raise _ _ _ _ _ Hs).
Qed.

Lemma smart_flow_not_a_mapping text images (w w1 : W) (pi : value) :
  _step_classify_and_extract swjo text images w = (Ok pi, w1) ->
  is_dict pi = false ->
  exists e, smart_flow model swjo text images w = (Raise e, w1).
Proof.
  intros Hs Hpi. unfold smart_flow. rewrite (bindM_ok _ _ _ _ _ Hs).
  destruct pi; try discriminate Hpi; eexists; reflexivity.
Qed.

Lemma generate_solution_other (pi ptype : value) (ctx : string) (w : W) :
  dict_get pi "problem_type" (VStr "general") = Ok ptype ->
  eq_str ptype "coding" = false ->
  ToonFormatter.encode_toon pi = Ok ctx ->
  _step_generate_solution swjo pi w = other_call swjo ctx w.
Proof.
  intros Hget Hne Hctx. unfold _step_generate_solution.
  rewrite bindM_lift, Hget, bindM_lift, Hctx, Hne. reflexivity.
Qed.

Lemma smart_flow_type_not_a_string text images (w w1 : W)
  (pi ptype : value) (ctx : string) :
  _step_classify_and_extract swjo text images w = (Ok pi, w1) ->
  dict_get pi "problem_type" (VStr "general") = Ok ptype ->
  is_str ptype = false ->
  ToonFormatter.encode_toon pi = Ok ctx ->
  exists e, smart_flow model swjo text images w
            = (Raise e, snd (other_call swjo ctx w1)).
Proof.
  intros Hs Hget Hty Hctx. unfold smart_flow.
  rewrite (bindM_ok _ _ _ _ _ Hs).
  assert (Hne : eq_str ptype "coding" = false)
    by (destruct ptype; try discriminate Hty; reflexivity).
  unfold bindM at 1.
  rewrite (generate_solution_other pi ptype ctx w1 Hget Hne Hctx).
  destruct (other_call swjo ctx w1) as [[sd|e] w2]; cbn [snd];
    [|eexists; reflexivity].
  rewrite bindM_lift. unfold _format_solution_markdown.
  destruct (dict_get sd "solution" (VDict [])) as [sol|e];
    cbn [bind]; [|eexists; reflexivity].
  rewrite Hget. cbn [bind].
  destruct ptype; try discriminate Hty; eexists; reflexivity.
Qed.

Lemma smart_flow_completes text images (w w1 w2 : W)
  (pi sd : value) (p ctx md : string) :
  _step_classify_and_extract swjo text images w = (Ok pi, w1) ->
  dict_get pi "problem_type" (VStr "general") = Ok (VStr p) ->
  String.eqb p "coding" = false ->
  ToonFormatter.encode_toon pi = Ok ctx ->
  other_call swjo ctx w1 = (Ok sd, w2) ->
  _format_solution_markdown sd pi = Ok md ->
  smart_flow model swjo text images w
  = (Ok (VDict [("response", VStr md);
                ("metadata",
                 VDict [("model", VStr model);
                        ("problem_info", pi);
                        ("raw_solution", sd)])]), w2).
Proof.
  intros Hs Hget Hne Hctx Hcall Hmd. unfold smart_flow.
  rewrite (bindM_ok _ _ _ _ _ Hs).
  unfold bindM at 1.
  rewrite (generate_solution_other pi (VStr p) ctx w1 Hget Hne Hctx), Hcall.
  rewrite bindM_lift, Hmd. reflexivity.
Qed.

Lemma unknown_is_not_coding (p : string) :
  known_problem_type p = false -> String.eqb p "coding" = false.
Proof.
  unfold known_problem_type. intros Hk.
  now destruct (String.eqb p "coding").
Qed.

End Pipeline.
End SmartFacts.

(** ** The contract of the pipeline *)

Module PipelineContract.
Import HandlerFacts SmartGeminiProvider Contract SmartFacts.

Section Pipeline.
Context {W image file : Type} `{Genai.Api W image file} `{Json} `{Repr} `{ToonFormat}.
Variable model : string.
Variable swjo : string -> value -> option (list image) -> M W value.

(** C1, as the code has it.  With an image present: if the first schema
    call raises, or returns something that is no mapping, or a mapping
    whose problem_type is no string, [send_message] returns what one plain
    call with the original text, images, audio file and system prompt
    returns, and that reply carries neither 'problem_info' nor
    'raw_solution'.  A problem_type that is a string outside the four
    known ones does not degrade: the second call is the one for non-coding
    problems, and once it and the renderer succeed the reply carries both
    keys. *)
Theorem degrades_to_plain_call text images audio sp (w : W) :
  opt_list_truthy images = true ->
  (forall e w1,
      _step_classify_and_extract swjo text images w = (Raise e, w1) ->
      degraded (send_message_via model swjo text images audio sp w)
               (GeminiProvider.send_message model text images audio sp w1))
  /\ (forall pi w1,
        _step_classify_and_extract swjo text images w = (Ok pi, w1) ->
        is_dict pi = false ->
        degraded (send_message_via model swjo text images audio sp w)
                 (GeminiProvider.send_message model text images audio sp w1))
  /\ (forall pi w1 ptype ctx,
        _step_classify_and_extract swjo text images w = (Ok pi, w1) ->
        dict_get pi "problem_type" (VStr "general") = Ok ptype ->
        is_str ptype = false ->
        ToonFormatter.encode_toon pi = Ok ctx ->
        degraded (send_message_via model swjo text images audio sp w)
                 (GeminiProvider.send_message model text images audio sp
                    (snd (other_call swjo ctx w1))))
  /\ (forall pi w1 p ctx sd w2 md,
        _step_classify_and_extract swjo text images w = (Ok pi, w1) ->
        dict_get pi "problem_type" (VStr "general") = Ok (VStr p) ->
        known_problem_type p = false ->
        ToonFormatter.encode_toon pi = Ok ctx ->
        other_call swjo ctx w1 = (Ok sd, w2) ->
        _format_solution_markdown sd pi = Ok md ->
        send_message_via model swjo text images audio sp w
        = (Ok (VDict [("response", VStr md);
                      ("metadata",
                       VDict [("model", VStr model);
                              ("problem_info", pi);
                              ("raw_solution", sd)])]), w2)).
Proof.
  intros Himg. split; [|split; [|split]].
  - intros e w1 Hs.
    apply (smart_flow_raise_degrades model swjo _ _ audio sp _ _ e Himg).
    now apply smart_flow_stage1_raises.
  - intros pi w1 Hs Hpi.
    destruct (smart_flow_not_a_mapping model swjo _ _ _ _ _ Hs Hpi) as [e He].
    exact (smart_flow_raise_degrades model swjo _ _ audio sp _ _ e Himg He).
  - intros pi w1 ptype ctx Hs Hget Hty Hctx.
    destruct (smart_flow_type_not_a_string model swjo _ _ _ _ _ _ _
                Hs Hget Hty Hctx) as [e He].
    exact (smart_flow_raise_degrades model swjo _ _ audio sp _ _ e Himg He).
  - intros pi w1 p ctx sd w2 md Hs Hget Hk Hctx Hcall Hmd.
    unfold send_message_via. rewrite Himg. cbn [negb].
    apply try_exceptM_ok.
    exact (smart_flow_completes model swjo _ _ _ _ _ _ _ _ _ _ Hs Hget
             (unknown_is_not_coding _ Hk) Hctx Hcall Hmd).
Qed.

End Pipeline.

Lemma degrades_to_plain_call_witness :
  degraded
    (Lab.smart_via Samples.failing_schema_call
       "What is this?" Samples.screenshot None None Samples.listing_world)
    (Lab.plain "What is this?" Samples.screenshot None None Samples.listing_world)
  /\ fst (Lab.smart "What is this?" Samples.screenshot None None Samples.listing_world)
     = Ok (VDict [("response", VStr "plain answer");
                  ("metadata", VDict [("model", VStr Lab.model);
                                      ("finish_reason", VStr "STOP")])]).
Proof.
  split.
  - destruct (@degrades_to_plain_call _ nat string
                Reference.gemini Reference.json Reference.repr Reference.toon_missing
                Lab.model Samples.failing_schema_call
                "What is this?" Samples.screenshot None None Samples.listing_world
                eq_refl) as (Hraise & _).
    apply (Hraise Samples.outage). reflexivity.
  - destruct (@degrades_to_plain_call _ nat string
                Reference.gemini Reference.json Reference.repr Reference.toon_missing
                Lab.model Lab.schema_call
                "What is this?" Samples.screenshot None None Samples.listing_world
                eq_refl) as (_ & Hlist & _).
    destruct (Hlist (VList [VInt 1; VInt 2; VInt 3])
                (snd (Lab.schema_call
                        (system_instruction ++ LF ++ LF ++ "User Note: "
                         ++ "What is this?")
                        extraction_schema Samples.screenshot
                        Samples.listing_world))) as [Heq _].
    + vm_compute. reflexivity.
    + reflexivity.
    + unfold Lab.smart, SmartGeminiProvider.send_message, inherited_schema_call.
      unfold Lab.smart_via, Lab.schema_call in Heq. rewrite Heq.
      vm_compute. reflexivity.
Defined.

(** C1 as stated fails on a classification outside the enum: the reply
    "physics" goes through both stages and comes back rendered, with the
    pipeline's metadata, which no plain call produces. *)
Lemma unknown_problem_type_counterexample :
  fst (_step_classify_and_extract Lab.schema_call
         "What is this?" Samples.screenshot Samples.physics_world)
  = Ok Samples.physics_info
  /\ dict_get Samples.physics_info "problem_type" (VStr "general")
     = Ok (VStr "physics")
  /\ known_problem_type "physics" = false
  /\ (exists v,
         fst (Lab.smart "What is this?" Samples.screenshot None None
                Samples.physics_world) = Ok v
         /\ metadata_key v "problem_info" = Some Samples.physics_info
         /\ metadata_key v "raw_solution" = Some Samples.answer_data)
  /\ forall w,
       ~ degraded
           (Lab.smart "What is this?" Samples.screenshot None None
              Samples.physics_world)
           (Lab.plain "What is this?" Samples.screenshot None None w).
Proof.
  split; [vm_compute; reflexivity|].
  split; [reflexivity|].
  split; [reflexivity|].
  split.
  - eexists. split; [vm_compute; reflexivity|].
    split; vm_compute; reflexivity.
  - intros w [Heq (v & Hv & Hinfo & _)].
    rewrite <- Heq in Hv.
    assert (Hsmart :
      fst (Lab.smart "What is this?" Samples.screenshot None None
             Samples.physics_world)
      = Ok (VDict
              [("response",
                VStr ("**Type:** `PHYSICS`" ++ LF ++ LF ++ "### Analysis" ++ LF
                      ++ "t = sqrt(2h/g)" ++ LF ++ LF ++ "### Solution" ++ LF
                      ++ "about 2 s"));
               ("metadata",
                VDict [("model", VStr Lab.model);
                       ("problem_info", Samples.physics_info);
                       ("raw_solution", Samples.answer_data)])]))
      by (vm_compute; reflexivity).
    rewrite Hsmart in Hv. injection Hv as <-.
    discriminate Hinfo.
Qed.

End PipelineContract.

(** ** The contract of the schema-constrained call *)

Module SchemaCallContract.
Import HandlerFacts SmartGeminiProvider SchemaCallFacts.

Section Both.
Context {Wg image file : Type} `{Genai.Api Wg image file}.
Context {Wc : Type} `{Anthropic.Api Wc} `{Anthropic.Png image}.
Context `{Json} `{Repr} `{ToonFormat}.
Variable model : string.

(** C10, as the code has it.  [send_with_json_output] never raises, in
    either provider.  Gemini's turns every exception of its body
    (network fault, backend error, unreadable reply) into the mapping
    [{'error': <message>}], which is not the raw sentinel, and the first
    stage of the pipeline passes that mapping on as the ProblemInfo: its
    fields read as their defaults and the second stage issues the call for
    non-coding problems.  Claude's goes through [send_message], which has
    already absorbed a backend fault, so it answers with the parser's
    reading of the text "Error: <message>". *)
Theorem schema_call_never_raises
  text schema images (wg : Wg) (wc : Wc) :
  ((exists v w', inherited_schema_call text schema images wg = (Ok v, w'))
   /\ (forall e w',
         GeminiProvider.send_with_json_output_try text schema images wg
         = (Raise e, w') ->
         inherited_schema_call text schema images wg
         = (Ok (VDict [("error", VStr (exn_msg e))]), w')
         /\ forall t, VDict [("error", VStr (exn_msg e))]
                      <> BaseLLMProvider.raw_sentinel t)
   /\ (forall e w' ctx,
         GeminiProvider.send_with_json_output_try
           (system_instruction ++ LF ++ LF ++ "User Note: " ++ text)
           extraction_schema images wg = (Raise e, w') ->
         ToonFormatter.encode_toon (VDict [("error", VStr (exn_msg e))]) = Ok ctx ->
         let problem_info := VDict [("error", VStr (exn_msg e))] in
         _step_classify_and_extract inherited_schema_call text images wg
         = (Ok problem_info, w')
         /\ dict_get problem_info "problem_type" (VStr "general")
            = Ok (VStr "general")
         /\ dict_get problem_info "problem_statement" VNone = Ok VNone
         /\ dict_get problem_info "details" (VDict []) = Ok (VDict [])
         /\ _step_generate_solution inherited_schema_call problem_info w'
            = other_call inherited_schema_call ctx w'))
  /\
  ((exists v w',
       ClaudeProvider.send_with_json_output model text schema images wc = (Ok v, w'))
   /\ (forall e w',
         ClaudeProvider.send_message_try model
           (ClaudeProvider.schema_prompt text schema) images None None wc
         = (Raise e, w') ->
         ClaudeProvider.send_with_json_output model text schema images wc
         = (BaseLLMProvider.parse_structured_output ("Error: " ++ exn_msg e), w'))).
Proof.
  split; [split; [|split]|split].
  - apply gemini_schema_call_returns.
  - intros e w' Hb. split.
    + now apply gemini_schema_call_caught.
    + intros t Heq. discriminate Heq.
  - intros e w' ctx Hb Hctx problem_info.
    split; [|repeat split].
    + unfold _step_classify_and_extract.
      now apply gemini_schema_call_caught.
    + now apply SmartFacts.generate_solution_other with (ptype := VStr "general").
  - apply claude_schema_call_returns.
  - intros e w'. apply claude_schema_call_on_fault.
Qed.

End Both.

Lemma schema_call_never_raises_witness :
  Lab.schema_call "classify" extraction_schema Samples.screenshot Samples.gemini_down
  = (Ok (VDict [("error", VStr "503 Service Unavailable")]),
     snd (Lab.schema_call "classify" extraction_schema Samples.screenshot
            Samples.gemini_down))
  /\ fst (Lab.claude_schema_call "classify" extraction_schema Samples.screenshot
            Samples.claude_down)
     = Ok (VDict [("raw", VStr "Error: 503 Service Unavailable")]).
Proof.
  destruct (@schema_call_never_raises _ nat string Reference.gemini
              _ Reference.claude Reference.png
              Reference.json Reference.repr Reference.toon_missing
              Lab.claude_model "classify" extraction_schema Samples.screenshot
              Samples.gemini_down Samples.claude_down)
    as [(_ & Hgemini & _) (_ & Hclaude)].
  split.
  - apply (Hgemini Samples.outage). reflexivity.
  - unfold Lab.claude_schema_call.
    rewrite (Hclaude Samples.outage _ eq_refl).
    vm_compute. reflexivity.
Defined.

(** C10 as stated fails for Claude: the backend is down, the schema call
    returns, and what it returns is the raw sentinel around the error
    text, with no 'error' key.  Nor is Gemini's error mapping a shape of
    its own: a reply whose JSON is an object with the one key 'error'
    parses to the very same value. *)
Lemma claude_schema_call_counterexample :
  (fst (@Anthropic.messages_create _ Reference.claude
          (VDict []) (Reference.Build_claude_world [] []))
   = Raise Reference.exhausted
   /\ fst (Lab.claude_schema_call "classify" extraction_schema None
             (Reference.Build_claude_world [] []))
      = Ok (VDict [("raw", VStr "Error: connection refused")])
   /\ lookup "error" [("raw", VStr "Error: connection refused")] = None)
  /\ fst (Lab.schema_call "classify" extraction_schema None Samples.gemini_down)
     = fst (Lab.schema_call "classify" extraction_schema None Samples.gemini_echo).
Proof.
  repeat split; vm_compute; reflexivity.
Qed.

End SchemaCallContract.

(** ** The renderer *)

Module RendererFacts.
Import SmartGeminiProvider Contract TextFacts.

Section WithRepr.
Context `{Repr}.

Lemma dict_get_found (d : list (string * value)) (k : string) (v default : value) :
  lookup k d = Some v -> dict_get (VDict d) k default = Ok v.
Proof.
  intros Hk. unfold dict_get. now rewrite Hk.
Qed.

(** C5: the math answer [{solution: {answer: "4", reasoning: "2+2"}}]
    renders as the badge, then "Analysis" with the reasoning, then
    "Solution" with the answer, and nothing else: none of the headings of
    the coding layout occurs in the text. *)
Theorem math_rendering (problem_info : list (string * value)) :
  lookup "problem_type" problem_info = Some (VStr "math") ->
  _format_solution_markdown
    (VDict [("solution", VDict [("answer", VStr "4"); ("reasoning", VStr "2+2")])])
    (VDict problem_info)
  = Ok ("**Type:** `MATH`" ++ LF ++ LF
        ++ "### Analysis" ++ LF ++ "2+2" ++ LF ++ LF
        ++ "### Solution" ++ LF ++ "4")
  /\ mentions_any
       ["### Algorithm Steps"; "### Edge Cases"; "### Code Section"; "### Complexity"]
       ("**Type:** `MATH`" ++ LF ++ LF
        ++ "### Analysis" ++ LF ++ "2+2" ++ LF ++ LF
        ++ "### Solution" ++ LF ++ "4")
     = false.
Proof.
  intros Hpt. split; [|vm_compute; reflexivity].
  unfold _format_solution_markdown.
  rewrite (dict_get_found _ _ _ _ Hpt).
  reflexivity.
Qed.


End WithRepr.

Lemma math_rendering_witness :
  @_format_solution_markdown Reference.repr
    (VDict [("solution", VDict [("answer", VStr "4"); ("reasoning", VStr "2+2")])])
    (VDict Samples.math_info)
  = Ok ("**Type:** `MATH`" ++ LF ++ LF
        ++ "### Analysis" ++ LF ++ "2+2" ++ LF ++ LF
        ++ "### Solution" ++ LF ++ "4").
Proof.
  apply (@math_rendering Reference.repr Samples.math_info). reflexivity.
Defined.



End RendererFacts.

(** ** The shape of a reply *)

Module ReplyShape.
Import HandlerFacts.

Ltac split_binds H :=
  repeat match type of H with
         | context [match ?x with _ => _ end] => destruct x
         end.

Section Gemini.
Context {W image file : Type} `{Genai.Api W image file}.
Variable model : string.

Lemma gemini_reply_mapping text images audio sp (w w' : W) (v : value) :
  GeminiProvider.send_message model text images audio sp w = (Ok v, w') ->
  exists t md, v = VDict [("response", VStr t); ("metadata", VDict md)].
Proof.
  unfold GeminiProvider.send_message. rewrite try_exceptM_exception.
  destruct (GeminiProvider.send_message_try model text images audio sp w)
    as [[a|e] w1] eqn:Hbody.
  - intros Heq. injection Heq as <- <-.
    unfold GeminiProvider.send_message_try, GeminiProvider.with_audio,
      bindM, lift, ret in Hbody.
    split_binds Hbody; try discriminate Hbody;
      injection Hbody as <- <-; eexists; eexists; reflexivity.
  - intros Heq. injection Heq as <- <-. eexists. eexists. reflexivity.
Qed.

End Gemini.

Section Claude.
Context {W image : Type} `{Anthropic.Api W} `{Anthropic.Png image}.
Variable model : string.

Lemma claude_reply_mapping text images audio sp (w w' : W) (v : value) :
  ClaudeProvider.send_message model text images audio sp w = (Ok v, w') ->
  exists t md, v = VDict [("response", VStr t); ("metadata", VDict md)].
Proof.
  unfold ClaudeProvider.send_message. rewrite try_exceptM_exception.
  destruct (ClaudeProvider.send_message_try model text images audio sp w)
    as [[a|e] w1] eqn:Hbody.
  - intros Heq. injection Heq as <- <-.
    unfold ClaudeProvider.send_message_try, bindM, lift, ret in Hbody.
    split_binds Hbody; try discriminate Hbody;
      injection Hbody as <- <-; eexists; eexists; reflexivity.
  - intros Heq. injection Heq as <- <-. eexists. eexists. reflexivity.
Qed.

End Claude.

Section Smart.
Context {W image file : Type} `{Genai.Api W image file} `{Json} `{Repr} `{ToonFormat}.
Variable model : string.
Variable swjo : string -> value -> option (list image) -> M W value.

Lemma smart_flow_reply_mapping text images (w w' : W) (v : value) :
  SmartGeminiProvider.smart_flow model swjo text images w = (Ok v, w') ->
  exists t md, v = VDict [("response", VStr t); ("metadata", VDict md)].
Proof.
  unfold SmartGeminiProvider.smart_flow, bindM, lift, ret. intros Hflow.
  split_binds Hflow; try discriminate Hflow.
  injection Hflow as <- <-. eexists. eexists. reflexivity.
Qed.

Lemma smart_reply_mapping text images audio sp (w : W) :
  exists t md w',
    SmartGeminiProvider.send_message_via model swjo text images audio sp w
    = (Ok (VDict [("response", VStr t); ("metadata", VDict md)]), w').
Proof.
  unfold SmartGeminiProvider.send_message_via,
    SmartGeminiProvider.super_send_message.
  destruct (negb (opt_list_truthy images)).
  - destruct (ProviderFacts.gemini_send_message_returns
                model text images audio sp w) as (v & w' & Hv).
    destruct (gemini_reply_mapping _ _ _ _ _ _ _ _ Hv) as (t & md & ->).
    exists t, md, w'. exact Hv.
  - rewrite try_exceptM_exception.
    destruct (SmartGeminiProvider.smart_flow model swjo text images w)
      as [[v|e] w1] eqn:Hflow.
    + destruct (smart_flow_reply_mapping _ _ _ _ _ Hflow) as (t & md & ->).
      exists t, md, w1. reflexivity.
    + destruct (ProviderFacts.gemini_send_message_returns
                  model text images audio sp w1) as (v & w' & Hv).
      destruct (gemini_reply_mapping _ _ _ _ _ _ _ _ Hv) as (t & md & ->).
      exists t, md, w'. exact Hv.
Qed.

End Smart.

Section All.
Context {Wg image file : Type} `{Genai.Api Wg image file}.
Context {Wc : Type} `{Anthropic.Api Wc} `{Anthropic.Png image}.
Context `{Json} `{Repr} `{ToonFormat}.
Variable model : string.

(** X1: [send_message] of each of the three providers returns on every
    input, and what it returns is a mapping with a string under 'response'
    and a mapping under 'metadata'; the lookup [response.get('response')]
    of the window never meets anything else. *)
Theorem every_reply_is_a_reply_mapping
  text images audio sp (wg : Wg) (wc : Wc) :
  (exists t md w',
      GeminiProvider.send_message model text images audio sp wg
      = (Ok (VDict [("response", VStr t); ("metadata", VDict md)]), w'))
  /\ (exists t md w',
        ClaudeProvider.send_message model text images audio sp wc
        = (Ok (VDict [("response", VStr t); ("metadata", VDict md)]), w'))
  /\ (exists t md w',
        SmartGeminiProvider.send_message model text images audio sp wg
        = (Ok (VDict [("response", VStr t); ("metadata", VDict md)]), w')).
Proof.
  split; [|split].
  - destruct (ProviderFacts.gemini_send_message_returns
                model text images audio sp wg) as (v & w' & Hv).
    destruct (gemini_reply_mapping _ _ _ _ _ _ _ _ Hv) as (t & md & ->).
    exists t, md, w'. exact Hv.
  - destruct (ProviderFacts.claude_send_message_returns
                model text images audio sp wc) as (v & w' & Hv).
    destruct (claude_reply_mapping _ _ _ _ _ _ _ _ Hv) as (t & md & ->).
    exists t, md, w'. exact Hv.
  - apply smart_reply_mapping.
Qed.

End All.
End ReplyShape.

(** ** Failures late in the pipeline *)

Module PipelineEdges.
Import HandlerFacts SmartGeminiProvider Contract SmartFacts PipelineRequests.

Section Generic.
Context {W image file : Type} `{Genai.Api W image file} `{Json} `{Repr} `{ToonFormat}.
Variable model : string.
Variable swjo : string -> value -> option (list image) -> M W value.

Lemma smart_flow_late_failure text images (w w1 w2 : W)
  (pi : value) (r : result value) :
  _step_classify_and_extract swjo text images w = (Ok pi, w1) ->
  _step_generate_solution swjo pi w1 = (r, w2) ->
  match r with
  | Raise _ => True
  | Ok sd => raises (_format_solution_markdown sd pi) = true
  end ->
  exists e, smart_flow model swjo text images w = (Raise e, w2).
Proof.
  intros Hs Hg Hr. unfold smart_flow.
  rewrite (bindM_ok _ _ _ _ _ Hs). unfold bindM at 1. rewrite Hg.
  destruct r as [sd|e]; [|eexists; reflexivity].
  rewrite bindM_lift.
  destruct (_format_solution_markdown sd pi); [discriminate Hr|].
  eexists. reflexivity.
Qed.

(** X2: after a classification that went through, an exception of the
    second schema call or of the renderer still degrades: the reply is
    the one of a plain call with the original arguments, made in the
    world the second call left, and it carries none of the pipeline's
    metadata. *)
Theorem late_failures_degrade text images audio sp (w w1 w2 : W)
  (pi : value) (r : result value) :
  opt_list_truthy images = true ->
  _step_classify_and_extract swjo text images w = (Ok pi, w1) ->
  _step_generate_solution swjo pi w1 = (r, w2) ->
  match r with
  | Raise _ => True
  | Ok sd => raises (_format_solution_markdown sd pi) = true
  end ->
  degraded (send_message_via model swjo text images audio sp w)
           (GeminiProvider.send_message model text images audio sp w2).
Proof.
  intros Himg Hs Hg Hr.
  destruct (smart_flow_late_failure _ _ _ _ _ _ _ Hs Hg Hr) as [e He].
  exact (smart_flow_raise_degrades model swjo _ _ audio sp _ _ e Himg He).
Qed.

End Generic.

Section AsWritten.
Context {W image file : Type} `{Genai.Api W image file} `{Json} `{Repr} `{ToonFormat}.
Variable model : string.

Lemma schema_call_on_fault text schema images (w w' : W) (e : exn) :
  Genai.generate_content
    ((Genai.PText (text ++ GeminiProvider.schema_instruction schema)
      :: (if opt_list_truthy images
          then map Genai.PImage (opt_list_items images) else []))%list) w
  = (Raise e, w') ->
  inherited_schema_call text schema images w
  = (Ok (VDict [("error", VStr (exn_msg e))]), w').
Proof.
  intros Hg. apply SchemaCallFacts.gemini_schema_call_caught.
  unfold GeminiProvider.send_with_json_output_try.
  now rewrite (bindM_raise _ _ _ _ _ Hg).
Qed.


(** X3: a backend that fails on both schema calls is not met with the
    plain call.  The errors travel on as data: the reply is the bare badge
    of the default type, with the two error mappings as 'problem_info' and
    'raw_solution'. *)
Theorem backend_down_is_not_degraded text images audio sp (w w1 w2 : W)
  (e1 e2 : exn) (ctx : string) :
  opt_list_truthy images = true ->
  Genai.generate_content (stage1_request text images) w = (Raise e1, w1) ->
  ToonFormatter.encode_toon (VDict [("error", VStr (exn_msg e1))]) = Ok ctx ->
  Genai.generate_content (stage2_other_request ctx) w1 = (Raise e2, w2) ->
  SmartGeminiProvider.send_message model text images audio sp w
  = (Ok (VDict [("response", VStr ("**Type:** `GENERAL`" ++ LF ++ LF));
                ("metadata",
                 VDict [("model", VStr model);
                        ("problem_info", VDict [("error", VStr (exn_msg e1))]);
                        ("raw_solution", VDict [("error", VStr (exn_msg e2))])])]),
     w2).
Proof.
  intros Himg Hfirst Hctx Hsecond.
  unfold SmartGeminiProvider.send_message, send_message_via.
  rewrite Himg. cbn [negb]. apply try_exceptM_ok.
  apply (smart_flow_completes model inherited_schema_call text images w w1 w2
           (VDict [("error", VStr (exn_msg e1))])
           (VDict [("error", VStr (exn_msg e2))])
           "general" ctx ("**Type:** `GENERAL`" ++ LF ++ LF)).
  - unfold _step_classify_and_extract. now apply schema_call_on_fault.
  - reflexivity.
  - reflexivity.
  - exact Hctx.
  - unfold other_call. now apply schema_call_on_fault.
  - reflexivity.
Qed.



End AsWritten.
Lemma late_failures_degrade_witness :
  fst (Lab.smart "What is this?" Samples.screenshot None None
         MoreSamples.list_solution_world)
  = Ok (VDict [("response", VStr "plain answer");
               ("metadata", VDict [("model", VStr Lab.model);
                                   ("finish_reason", VStr "STOP")])]).
Proof.
  pose proof (@late_failures_degrade _ nat string
                Reference.gemini Reference.json Reference.repr
                Reference.toon_missing Lab.model Lab.schema_call
                "What is this?" Samples.screenshot None None
                MoreSamples.list_solution_world
                (snd (_step_classify_and_extract Lab.schema_call
                        "What is this?" Samples.screenshot
                        MoreSamples.list_solution_world))
                (snd (@_step_generate_solution _ nat Reference.json
                        Reference.toon_missing Lab.schema_call
                        Samples.physics_info
                        (snd (_step_classify_and_extract Lab.schema_call
                                "What is this?" Samples.screenshot
                                MoreSamples.list_solution_world))))
                Samples.physics_info
                (Ok (VList [VInt 1; VInt 2; VInt 3]))
                eq_refl) as Hlate.
  destruct Hlate as [Heq _];
    [vm_compute; reflexivity | vm_compute; reflexivity | reflexivity |].
  unfold Lab.smart, SmartGeminiProvider.send_message, inherited_schema_call.
  unfold Lab.schema_call in Heq. rewrite Heq.
  vm_compute. reflexivity.
Defined.

Lemma backend_down_is_not_degraded_witness :
  fst (Lab.smart "What is this?" Samples.screenshot None None Samples.gemini_down)
  = Ok (VDict [("response", VStr ("**Type:** `GENERAL`" ++ LF ++ LF));
               ("metadata",
                VDict [("model", VStr Lab.model);
                       ("problem_info",
                        VDict [("error", VStr "503 Service Unavailable")]);
                       ("raw_solution",
                        VDict [("error", VStr "connection refused")])])]).
Proof.
  unfold Lab.smart.
  erewrite (@backend_down_is_not_degraded _ nat string
              Reference.gemini Reference.json Reference.repr
              Reference.toon_missing Lab.model
              "What is this?" Samples.screenshot None None
              Samples.gemini_down _ _ Samples.outage Reference.exhausted _
              eq_refl eq_refl eq_refl eq_refl).
  reflexivity.
Defined.


End PipelineEdges.

(** ** Edges of the renderer *)

Module RendererEdges.
Import SmartGeminiProvider Contract TextFacts RendererFacts.

Ltac crush_render :=
  repeat (cbn [bind raises dict_get upper_method strip_method eq_str] in *;
          try reflexivity; try discriminate;
          match goal with
          | |- context [match ?x with _ => _ end] => destruct x eqn:?
          | |- context [bind ?r _] =>
              lazymatch r with
              | bind _ _ => fail
              | _ => destruct r eqn:?
              end
          end).

Section WithRepr.
Context `{Repr}.

(** X5: what makes the renderer raise instead of returning text: a
    solution or a problem description that is no mapping, a 'solution'
    entry that is no mapping, a problem type that is no string, and, for a
    coding problem, code that is not a string or edge cases that cannot be
    iterated. *)
Theorem renderer_raises_on_malformed_data (solution_data problem_info : value) :
  (is_dict solution_data = false \/ is_dict problem_info = false ->
   raises (_format_solution_markdown solution_data problem_info) = true)
  /\ (forall s,
        dict_get solution_data "solution" (VDict []) = Ok s ->
        is_dict s = false ->
        raises (_format_solution_markdown solution_data problem_info) = true)
  /\ (forall ptype,
        dict_get problem_info "problem_type" (VStr "general") = Ok ptype ->
        is_str ptype = false ->
        raises (_format_solution_markdown solution_data problem_info) = true)
  /\ (forall sol code,
        dict_get solution_data "solution" (VDict []) = Ok (VDict sol) ->
        dict_get problem_info "problem_type" (VStr "general") = Ok (VStr "coding") ->
        lookup "code" sol = Some code ->
        truthy code = true ->
        is_str code = false ->
        raises (_format_solution_markdown solution_data problem_info) = true)
  /\ (forall sol edge_cases,
        dict_get solution_data "solution" (VDict []) = Ok (VDict sol) ->
        dict_get problem_info "problem_type" (VStr "general") = Ok (VStr "coding") ->
        lookup "edge_cases" sol = Some edge_cases ->
        truthy edge_cases = true ->
        raises (py_iter edge_cases) = true ->
        raises (_format_solution_markdown solution_data problem_info) = true).
Proof.
  split; [|split; [|split; [|split]]].
  - intros [Hsd|Hpi]; unfold _format_solution_markdown.
    + destruct solution_data; try discriminate Hsd; reflexivity.
    + destruct (dict_get solution_data "solution" (VDict [])); [|reflexivity].
      destruct problem_info; try discriminate Hpi; reflexivity.
  - intros s Hs Hdict. unfold _format_solution_markdown. rewrite Hs.
    cbn [bind].
    destruct (dict_get problem_info "problem_type" (VStr "general"))
      as [ptype|]; [|reflexivity].
    cbn [bind]. destruct (upper_method ptype); [|reflexivity].
    cbn [bind].
    destruct (eq_str ptype "coding"); destruct s; try discriminate Hdict;
      reflexivity.
  - intros ptype Hpt Hstr. unfold _format_solution_markdown.
    destruct (dict_get solution_data "solution" (VDict [])); [|reflexivity].
    cbn [bind]. rewrite Hpt. cbn [bind].
    destruct ptype; try discriminate Hstr; reflexivity.
  - intros sol code Hsol Hpt Hcode Tcode Hstr.
    unfold _format_solution_markdown. rewrite Hsol, Hpt.
    cbn [bind upper_method eq_str].
    change (String.eqb "coding" "coding") with true. cbv iota.
    rewrite (dict_get_found _ _ _ _ Hcode).
    destruct problem_info as [| | | | |pinfo]; try discriminate Hpt.
    destruct code; try discriminate Hstr; rewrite ?Tcode; crush_render.
  - intros sol edge_cases Hsol Hpt Hec Tec Hiter.
    unfold _format_solution_markdown. rewrite Hsol, Hpt.
    cbn [bind upper_method eq_str].
    change (String.eqb "coding" "coding") with true. cbv iota.
    rewrite (dict_get_found _ _ _ _ Hec).
    destruct (py_iter edge_cases) eqn:Hit; [discriminate Hiter|].
    destruct (dict_get (VDict sol) "algorithm_steps" (VStr EmptyString))
      as [steps|] eqn:Hsteps; [|discriminate Hsteps].
    cbn [bind].
    destruct (truthy steps); cbn [bind dict_get]; rewrite ?Tec, ?Hit;
      [reflexivity|].
    destruct (truthy match lookup "reasoning" sol with
                     | Some v => v
                     | None => VNone
                     end); reflexivity.
Qed.







End WithRepr.
Lemma renderer_raises_on_malformed_data_witness :
  raises (@_format_solution_markdown Reference.repr
            (VDict [("solution", VDict MoreSamples.listed_code)])
            (VDict Samples.coding_info)) = true.
Proof.
  destruct (@renderer_raises_on_malformed_data Reference.repr
              (VDict [("solution", VDict MoreSamples.listed_code)])
              (VDict Samples.coding_info)) as (_ & _ & _ & Hcode & _).
  apply (Hcode MoreSamples.listed_code (VList [VStr "print(1)"]));
    reflexivity.
Defined.





End RendererEdges.

(** ** Edges of the parser and of the streams *)

Module ParserEdges.
Import BaseLLMProvider TextFacts.




Section WithJson.
Context `{Json}.


End WithJson.


End ParserEdges.

Module StreamEdges.
Import HandlerFacts.

Lemma drain_healthy (ts : list string) :
  GeminiProvider.drain (map Ok ts) None
  = (filter (fun t => negb (str_is_empty t)) ts, Ok tt).
Proof.
  induction ts as [|t ts IH]; simpl; [reflexivity|].
  rewrite IH. now destruct (str_is_empty t).
Qed.

Lemma drain_unreadable (ts : list string) (e : exn)
  (rest : list (result string)) (fin : option exn) :
  GeminiProvider.drain (map Ok ts ++ Raise e :: rest)%list fin
  = (filter (fun t => negb (str_is_empty t)) ts, Raise e).
Proof.
  induction ts as [|t ts IH]; simpl; [reflexivity|].
  rewrite IH. now destruct (str_is_empty t).
Qed.

Section Both.
Context {Wg image file : Type} `{Genai.Api Wg image file}.
Context {Wc : Type} `{Anthropic.Api Wc} `{Anthropic.Png image}.
Variable model : string.

(** X11: what a stream without audio and images gives its consumer.
    Gemini's yields the non-empty chunk texts in order and nothing else
    when the stream ends well; a chunk whose text cannot be read ends it
    with the annotation, and the chunks behind it are never yielded.
    Claude's yields every chunk it receives, the empty ones too. *)
Theorem streams_yield_what_they_read text sp (wg wg' : Wg) (wc wc' : Wc)
  (s : Genai.stream) (cs : Anthropic.text_stream) (ts : list string) :
  Genai.generate_content_stream
    (GeminiProvider.local_parts text None sp) wg = (Ok s, wg') ->
  Anthropic.messages_stream
    (ClaudeProvider.message_params model
       (if str_is_empty text then [] else [ClaudeProvider.text_block text]) sp) wc
  = (Ok cs, wc') ->
  Anthropic.text_stream_end cs = None ->
  (Genai.chunks s = map Ok ts -> Genai.stream_end s = None ->
   GeminiProvider.stream_response (image:=image) text None None sp wg
   = (filter (fun t => negb (str_is_empty t)) ts, Ok tt, wg'))
  /\ (forall e rest,
        Genai.chunks s = (map Ok ts ++ Raise e :: rest)%list ->
        GeminiProvider.stream_response (image:=image) text None None sp wg
        = ((filter (fun t => negb (str_is_empty t)) ts
            ++ [GeminiProvider.error_chunk e])%list, Ok tt, wg'))
  /\ ClaudeProvider.stream_response (image:=image) model text None None sp wc
     = (Anthropic.text_chunks cs, Ok tt, wc').
Proof.
  intros Hg Hc Hend. split; [|split].
  - intros Hcs Hfin. rewrite ProviderFacts.gemini_stream_response_shape.
    unfold GeminiProvider.stream_body, GeminiProvider.with_audio.
    cbn [opt_str_truthy]. unfold bindM at 1. unfold ret at 1.
    now rewrite Hg, Hcs, Hfin, drain_healthy.
  - intros e rest Hcs. rewrite ProviderFacts.gemini_stream_response_shape.
    unfold GeminiProvider.stream_body, GeminiProvider.with_audio.
    cbn [opt_str_truthy]. unfold bindM at 1. unfold ret at 1.
    now rewrite Hg, Hcs, drain_unreadable.
  - rewrite ProviderFacts.claude_stream_response_shape.
    unfold ClaudeProvider.stream_body.
    cbn [opt_list_truthy]. unfold bindM, lift.
    cbn [app]. now rewrite Hc, Hend.
Qed.

End Both.
Lemma streams_yield_what_they_read_witness :
  fst (fst (@GeminiProvider.stream_response _ nat string Reference.gemini
              "hello" None None None MoreSamples.gemini_streaming))
  = ["Hel"; "lo"]
  /\ fst (fst (@ClaudeProvider.stream_response _ nat Reference.claude
                 Reference.png Lab.claude_model
                 "hello" None None None MoreSamples.claude_streaming))
     = ["Hel"; EmptyString; "lo"].
Proof.
  destruct (@streams_yield_what_they_read _ nat string Reference.gemini
              _ Reference.claude Reference.png Lab.claude_model
              "hello" None
              MoreSamples.gemini_streaming
              (snd (@Genai.generate_content_stream _ nat string Reference.gemini
                      [Genai.PText "hello"] MoreSamples.gemini_streaming))
              MoreSamples.claude_streaming
              {| Reference.messages := []; Reference.text_streams := [] |}
              {| Genai.chunks := [Ok "Hel"; Ok EmptyString; Ok "lo"];
                 Genai.stream_end := None |}
              {| Anthropic.text_chunks := ["Hel"; EmptyString; "lo"];
                 Anthropic.text_stream_end := None |}
              ["Hel"; EmptyString; "lo"]
              eq_refl eq_refl eq_refl) as (Hgemini & _ & Hclaude).
  split.
  - rewrite (Hgemini eq_refl eq_refl). reflexivity.
  - rewrite Hclaude. reflexivity.
Defined.

End StreamEdges.

(** ** The prompt helpers *)

Module ToonPromptFacts.
Import ToonPrompt TextFacts.

Section WithLibraries.
Context `{Json} `{ToonFormat}.




End WithLibraries.


End ToonPromptFacts.

(** ** The settings *)

Module SettingsFacts.
Import Settings HandlerFacts.

Lemma lookup_store_same (d : list (string * value)) (k : string) (v : value) :
  lookup k (store d k v) = Some v.
Proof.
  induction d as [|[k' v'] d IH]; simpl.
  - now rewrite String.eqb_refl.
  - destruct (String.eqb k k') eqn:Hk; simpl.
    + now rewrite String.eqb_refl.
    + now rewrite Hk.
Qed.


Lemma str_split_nonempty (sep : ascii) (s : string) : str_split sep s <> [].
Proof.
  destruct s as [|c s]; simpl; [discriminate|].
  destruct (Ascii.eqb c sep); [discriminate|].
  destruct (str_split sep s); discriminate.
Qed.

Lemma walk_raises_key_or_type (keys : list string) (v : value) (e : exn) :
  walk v keys = Raise e -> exn_cls e = KeyError \/ exn_cls e = TypeError.
Proof.
  revert v. induction keys as [|k keys IH]; intros v; simpl; [discriminate|].
  destruct v; simpl; try (intros Heq; injection Heq as <-; now right).
  destruct (lookup k d) as [c|]; simpl.
  - apply IH.
  - intros Heq. injection Heq as <-. now left.
Qed.

Lemma get_cases (settings : value) (key_path : string) (default : value) :
  get settings key_path default
  = Ok (match walk settings (str_split "."%char key_path) with
        | Ok v => v
        | Raise _ => default
        end).
Proof.
  unfold get, try_except.
  destruct (walk settings (str_split "." key_path)) as [v|e] eqn:Hw;
    [reflexivity|].
  destruct (walk_raises_key_or_type _ _ _ Hw) as [Hc|Hc];
    cbn [dispatch]; rewrite Hc; reflexivity.
Qed.

(** X14: [get] never raises.  It returns the value at the end of the
    dotted path when every step finds its key in a mapping, and the
    default in every other case: a missing key, or a step into something
    that is no mapping. *)
Theorem get_returns_the_value_or_the_default
  (settings : value) (key_path : string) (default : value) :
  (exists v, get settings key_path default = Ok v)
  /\ (forall v,
        walk settings (str_split "."%char key_path) = Ok v ->
        get settings key_path default = Ok v)
  /\ (raises (walk settings (str_split "."%char key_path)) = true ->
      get settings key_path default = Ok default).
Proof.
  rewrite get_cases. split; [|split].
  - eexists. reflexivity.
  - intros v ->. reflexivity.
  - destruct (walk settings (str_split "." key_path));
      [discriminate|reflexivity].
Qed.

Lemma navigate_then_walk (parents : list string) (last_key : string)
  (v target target' : value) :
  navigate_and_set target parents last_key v = Ok target' ->
  walk target' (parents ++ [last_key]) = Ok v.
Proof.
  revert target target'. induction parents as [|k parents IH];
    intros target target'; simpl.
  - destruct target; simpl; try discriminate.
    intros Heq. injection Heq as <-. simpl.
    now rewrite lookup_store_same.
  - destruct target; try discriminate.
    destruct (navigate_and_set
                match lookup k d with Some c => c | None => VDict [] end
                parents last_key v) as [child'|] eqn:Hnav; simpl;
      [|discriminate].
    intros Heq. injection Heq as <-. simpl.
    rewrite lookup_store_same. simpl. exact (IH _ _ Hnav).
Qed.

Lemma navigate_raises_type_error (parents : list string) (last_key : string)
  (v target : value) (e : exn) :
  navigate_and_set target parents last_key v = Raise e ->
  exn_cls e = TypeError.
Proof.
  revert target. induction parents as [|k parents IH]; intros target; simpl.
  - destruct target; simpl; try discriminate;
      intros Heq; injection Heq as <-; reflexivity.
  - destruct target; try (intros Heq; injection Heq as <-; reflexivity).
    destruct (navigate_and_set
                match lookup k d with Some c => c | None => VDict [] end
                parents last_key v) eqn:Hnav; simpl; [discriminate|].
    intros Heq. injection Heq as <-. exact (IH _ Hnav).
Qed.


Section WithFile.
Context {W : Type} `{Json} `{ConfigFile W}.

Lemma save_returns (settings : value) (w : W) :
  exists w', save settings w = (Ok tt, w').
Proof.
  unfold save. rewrite try_exceptM_exception.
  destruct (write_config (json_dumps_indent2 settings) w) as [[[]|e] w'];
    eexists; reflexivity.
Qed.

Lemma set_cases (settings : value) (key_path : string) (v : value) (w : W) :
  let keys := str_split "."%char key_path in
  match navigate_and_set settings (removelast keys) (last keys EmptyString) v with
  | Ok settings' => exists w', set settings key_path v w = (Ok settings', w')
  | Raise e => set settings key_path v w = (Raise e, w)
  end.
Proof.
  intros keys. unfold set. fold keys.
  destruct (navigate_and_set settings (removelast keys)
              (last keys EmptyString) v) as [s'|e]; unfold bindM, lift;
    [|reflexivity].
  destruct (save_returns s' w) as [w' Hsave]. rewrite Hsave.
  exists w'. reflexivity.
Qed.

(** X15: what [set] stores, [get] finds: after [set(path, v)] has
    returned, [get(path)] on the new settings is [v], whatever the
    default. *)
Theorem set_then_get (settings settings' : value) (key_path : string)
  (v default : value) (w w' : W) :
  set settings key_path v w = (Ok settings', w') ->
  get settings' key_path default = Ok v.
Proof.
  intros Hset.
  pose proof (set_cases settings key_path v w) as Hcases. cbv zeta in Hcases.
  destruct (navigate_and_set settings
              (removelast (str_split "." key_path))
              (last (str_split "." key_path) EmptyString) v)
    as [s'|e] eqn:Hnav.
  - destruct Hcases as [w1 Hs]. rewrite Hs in Hset. injection Hset as <- <-.
    rewrite get_cases.
    rewrite (app_removelast_last EmptyString (str_split_nonempty "." key_path)).
    now rewrite (navigate_then_walk _ _ _ _ _ Hnav).
  - rewrite Hcases in Hset. discriminate Hset.
Qed.


(** X17: how [set] ends.  When the path runs only through mappings and
    gaps, it returns the updated settings even if the file cannot be
    written, for [save] swallows the error.  When the path meets a value
    that is no mapping, it raises a [TypeError] and nothing is written. *)
Theorem set_outcomes (settings : value) (key_path : string) (v : value) (w : W) :
  (forall settings',
      navigate_and_set settings
        (removelast (str_split "."%char key_path))
        (last (str_split "."%char key_path) EmptyString) v = Ok settings' ->
      exists w', set settings key_path v w = (Ok settings', w'))
  /\ (forall e,
        navigate_and_set settings
          (removelast (str_split "."%char key_path))
          (last (str_split "."%char key_path) EmptyString) v = Raise e ->
        exn_cls e = TypeError
        /\ set settings key_path v w = (Raise e, w)).
Proof.
  pose proof (set_cases settings key_path v w) as Hcases. cbv zeta in Hcases.
  split.
  - intros s' Hnav. now rewrite Hnav in Hcases.
  - intros e Hnav. split.
    + exact (navigate_raises_type_error _ _ _ _ _ Hnav).
    + now rewrite Hnav in Hcases.
Qed.

End WithFile.
Section WithCipher.
Context {W : Type} `{Json} `{Cipher W} `{Environ} `{ConfigFile W}.


(** X19: a key stored with [set_api_key] is the key [get_api_key] gives
    back, provided the settings have their 'llm' section and the cipher
    decrypts its own non-empty token. *)
Theorem set_api_key_then_get_api_key (settings : value)
  (llm : list (string * value)) (provider api_key token : string) (w w1 : W) :
  dict_item settings "llm" = Ok (VDict llm) ->
  encrypt_b64 api_key w = (Ok token, w1) ->
  token <> EmptyString ->
  decrypt_b64 token = Ok api_key ->
  exists settings' w',
    set_api_key settings provider api_key w = (Ok settings', w')
    /\ get_api_key settings' provider = Ok (VStr api_key).
Proof.
  intros Hllm Henc Htoken Hdec.
  destruct settings as [| | | | |d]; try discriminate Hllm.
  set (llm' := store llm (provider ++ "_api_key_encrypted") (VStr token)).
  destruct (SettingsFacts.save_returns (VDict (store d "llm" (VDict llm'))) w1)
    as [w' Hsave].
  exists (VDict (store d "llm" (VDict llm'))), w'. split.
  - unfold set_api_key, encrypt_value.
    rewrite (bindM_ok _ _ _ _ _ Henc).
    rewrite SmartFacts.bindM_lift, Hllm.
    cbn [setitem]. rewrite !SmartFacts.bindM_lift. fold llm'.
    unfold bindM. rewrite Hsave. reflexivity.
  - unfold get_api_key. cbn [dict_item].
    rewrite lookup_store_same. cbn [bind dict_get].
    unfold llm'. rewrite lookup_store_same.
    assert (Ttoken : truthy (VStr token) = true)
      by (destruct token; [contradiction|reflexivity]).
    rewrite Ttoken. unfold decrypt_value. rewrite Hdec. reflexivity.
Qed.

(** X20: how the settings start.  With no [GEMINI_MODEL] in the
    environment, a configuration file that is missing, unreadable or not
    JSON gives the default settings.  With a non-empty [GEMINI_MODEL] and
    loaded settings that are a mapping whose 'llm' is a mapping or
    missing, the settings start with that model under
    'llm.gemini_model'. *)
Theorem init_defaults_and_override (config : option (result string)) :
  (getenv "GEMINI_MODEL" = None ->
   match config with
   | None => True
   | Some file => raises (text <- file ;; json_loads text) = true
   end ->
   init config = Ok _get_default_settings)
  /\ (forall env_model d default,
        getenv "GEMINI_MODEL" = Some env_model ->
        env_model <> EmptyString ->
        _load_settings config = Ok (VDict d) ->
        is_dict (match lookup "llm" d with
                 | Some llm => llm
                 | None => VDict []
                 end) = true ->
        exists settings,
          init config = Ok settings
          /\ get settings "llm.gemini_model" default = Ok (VStr env_model)).
Proof.
  split.
  - intros Henv Hconfig. unfold init, _load_settings, override_model.
    rewrite Henv. destruct config as [file|]; [|reflexivity].
    unfold try_except.
    destruct (text <- file ;; json_loads text); [discriminate Hconfig|].
    reflexivity.
  - intros env_model d default Henv Hne Hload Hllm.
    unfold init. rewrite Hload. cbn [bind]. unfold override_model.
    rewrite Henv.
    assert (Hempty : str_is_empty env_model = false)
      by (destruct env_model; [contradiction|reflexivity]).
    rewrite Hempty.
    destruct (lookup "llm" d) as [llm|] eqn:Hl.
    + destruct llm as [| | | | |l]; try discriminate Hllm.
      cbn [dict_item]. rewrite Hl. cbn [bind setitem].
      eexists. split; [reflexivity|].
      rewrite get_cases.
      change (str_split "." "llm.gemini_model") with ["llm"; "gemini_model"].
      cbn [walk dict_item]. rewrite lookup_store_same.
      cbn [bind walk dict_item].
      now rewrite lookup_store_same.
    + cbn [dict_item]. rewrite lookup_store_same. cbn [bind setitem].
      eexists. split; [reflexivity|].
      rewrite get_cases.
      change (str_split "." "llm.gemini_model") with ["llm"; "gemini_model"].
      cbn [walk dict_item]. rewrite lookup_store_same.
      cbn [bind walk dict_item].
      now rewrite lookup_store_same.
Qed.

End WithCipher.

Lemma get_returns_the_value_or_the_default_witness :
  get _get_default_settings "llm.provider" VNone = Ok (VStr "gemini")
  /\ get _get_default_settings "llm.provider.name" (VStr "none") = Ok (VStr "none")
  /\ get _get_default_settings "audio.device" (VInt 0) = Ok (VInt 0).
Proof.
  split; [|split].
  - apply (get_returns_the_value_or_the_default
             _get_default_settings "llm.provider" VNone).
    reflexivity.
  - apply (get_returns_the_value_or_the_default
             _get_default_settings "llm.provider.name" (VStr "none")).
    reflexivity.
  - apply (get_returns_the_value_or_the_default
             _get_default_settings "audio.device" (VInt 0)).
    reflexivity.
Defined.

Lemma set_then_get_witness :
  exists settings' w',
    SettingsLab.set _get_default_settings "ui.panel.width" (VInt 320) (Some [])
    = (Ok settings', w')
    /\ get settings' "ui.panel.width" VNone = Ok (VInt 320).
Proof.
  destruct (SettingsLab.set _get_default_settings "ui.panel.width" (VInt 320)
              (Some [])) as [[settings'|e] w'] eqn:Hset.
  - exists settings', w'. split; [reflexivity|].
    exact (@set_then_get _ Reference.json SettingsLab.config_file
             _ _ _ _ VNone _ _ Hset).
  - vm_compute in Hset. discriminate Hset.
Defined.


Lemma set_outcomes_witness :
  (exists settings',
      SettingsLab.set _get_default_settings "ui.theme" (VStr "light") None
      = (Ok settings', None)
      /\ get settings' "ui.theme" VNone = Ok (VStr "light"))
  /\ exists e,
       SettingsLab.set _get_default_settings "llm.provider.name" (VStr "x")
         (Some [])
       = (Raise e, Some [])
       /\ exn_cls e = TypeError.
Proof.
  destruct (@set_outcomes _ Reference.json SettingsLab.config_file
              _get_default_settings "ui.theme" (VStr "light") None)
    as [Hok _].
  destruct (@set_outcomes _ Reference.json SettingsLab.config_file
              _get_default_settings "llm.provider.name" (VStr "x") (Some []))
    as [_ Hfail].
  split.
  - destruct (Hok _ eq_refl) as [w' Hset].
    eexists. split.
    + unfold SettingsLab.set. rewrite Hset. f_equal.
      vm_compute in Hset. now injection Hset as <-.
    + reflexivity.
  - destruct (Hfail _ eq_refl) as [Hcls Hset].
    eexists. split; [exact Hset|exact Hcls].
Defined.


Lemma set_api_key_then_get_api_key_witness :
  exists settings' w',
    SettingsLab.set_api_key _get_default_settings "gemini" "AIza-secret" (Some [])
    = (Ok settings', w')
    /\ SettingsLab.get_api_key settings' "gemini" = Ok (VStr "AIza-secret").
Proof.
  apply (@set_api_key_then_get_api_key _ Reference.json SettingsLab.cipher
           SettingsLab.environ SettingsLab.config_file
           _get_default_settings
           [("provider", VStr "gemini");
            ("gemini_api_key_encrypted", VNone);
            ("claude_api_key_encrypted", VNone);
            ("gemini_model", VStr "gemini-2.5-flash-lite");
            ("claude_model", VStr "claude-3-5-sonnet-20241022")]
           "gemini" "AIza-secret" "gAAAAAIza-secret" (Some []) (Some []));
    try reflexivity; discriminate.
Defined.

Lemma init_defaults_and_override_witness :
  @init Reference.json SettingsLab.no_environ (Some (Ok "{not json"))
  = Ok _get_default_settings
  /\ exists settings,
       @init Reference.json SettingsLab.environ None = Ok settings
       /\ get settings "llm.gemini_model" VNone = Ok (VStr "gemini-2.5-pro").
Proof.
  split.
  - apply (@init_defaults_and_override Reference.json SettingsLab.no_environ
             (Some (Ok "{not json"))); reflexivity.
  - destruct (@init_defaults_and_override Reference.json SettingsLab.environ
                None) as [_ Hover].
    eapply (Hover "gemini-2.5-pro");
      [reflexivity | discriminate | reflexivity | reflexivity].
Defined.

End SettingsFacts.

(** ** Documents *)

Module FileHandlerFacts.
Import FileHandler.

Lemma lower_ascii_idempotent (c : ascii) :
  lower_ascii (lower_ascii c) = lower_ascii c.
Proof.
  destruct c as [[] [] [] [] [] [] [] []]; reflexivity.
Qed.

Lemma str_lower_idempotent (s : string) : str_lower (str_lower s) = str_lower s.
Proof.
  induction s as [|c s IH]; simpl; [reflexivity|].
  now rewrite lower_ascii_idempotent, IH.
Qed.

Lemma page_parts_broken (i : nat) (ts : list string) (e : exn)
  (rest : list (result string)) :
  page_parts i (map Ok ts ++ Raise e :: rest)%list = Raise e.
Proof.
  revert i. induction ts as [|t ts IH]; intros i; simpl; [reflexivity|].
  now rewrite IH.
Qed.

Section WithFiles.
Context `{Files}.


(** X22: [validate_file_type] lowers the extension of the path and not
    the entries of the list: an allowed list written with upper-case
    letters matches no file at all. *)
Theorem upper_case_extensions_never_match
  (file_path : string) (allowed_extensions : list string) :
  (forall a, In a allowed_extensions -> str_lower a <> a) ->
  validate_file_type file_path allowed_extensions = false.
Proof.
  intros Hupper. unfold validate_file_type. cbv zeta.
  induction allowed_extensions as [|a rest IH]; [reflexivity|].
  cbn [existsb].
  destruct (String.eqb_spec (str_lower (splitext_ext file_path)) a) as [Heq|_].
  - exfalso. apply (Hupper a (or_introl eq_refl)).
    rewrite <- Heq. apply str_lower_idempotent.
  - cbn [orb]. apply IH. intros b Hb. apply Hupper. now right.
Qed.

(** X23: [_read_pdf] gives all pages or none.  It never raises; when one
    page cannot be extracted, the text of the pages before it is dropped
    and the result is the line "Error reading PDF: <message>" alone. *)
Theorem read_pdf_is_all_or_nothing (file_path : string) :
  (exists text, _read_pdf file_path = Ok text)
  /\ (forall ts e rest,
        pdf_pages file_path = Ok (map Ok ts ++ Raise e :: rest)%list ->
        _read_pdf file_path = Ok ("Error reading PDF: " ++ exn_msg e))
  /\ (forall e,
        pdf_pages file_path = Raise e ->
        _read_pdf file_path = Ok ("Error reading PDF: " ++ exn_msg e)).
Proof.
  split; [|split].
  - unfold _read_pdf, try_except.
    destruct (pages <- pdf_pages file_path ;;
              text_parts <- page_parts 0 pages ;; Ok (join LF text_parts));
      eexists; reflexivity.
  - intros ts e rest Hpages. unfold _read_pdf. rewrite Hpages.
    cbn [bind]. rewrite page_parts_broken. reflexivity.
  - intros e Hpages. unfold _read_pdf. rewrite Hpages. reflexivity.
Qed.

End WithFiles.


Lemma upper_case_extensions_never_match_witness :
  @validate_file_type DeskLab.files "paper.PDF" [".PDF"; ".TXT"] = false
  /\ @validate_file_type DeskLab.files "paper.PDF" [".pdf"; ".txt"] = true.
Proof.
  split; [|reflexivity].
  apply (@upper_case_extensions_never_match DeskLab.files).
  intros a [<-|[<-|[]]]; discriminate.
Defined.

Lemma read_pdf_is_all_or_nothing_witness :
  @_read_pdf DeskLab.files "paper.PDF" = Ok "Error reading PDF: broken page".
Proof.
  destruct (@read_pdf_is_all_or_nothing DeskLab.files "paper.PDF")
    as (_ & Hbroken & _).
  exact (Hbroken ["Abstract"] (mk_exn ValueError "broken page") [Ok "End"]
           eq_refl).
Defined.

End FileHandlerFacts.

(** ** Screens *)

Module ScreenshotFacts.
Import Screenshot HandlerFacts.

(** What the loop finds: the first monitor of the list that holds the
    point, counted from the start index. *)
Lemma first_containing_some (ms : list monitor) (i0 i : nat) (x y : Z) :
  first_containing ms i0 x y = Some i ->
  (i0 <= i)%nat
  /\ (exists m, nth_error ms (i - i0) = Some m /\ contains_point m x y = true)
  /\ forall j m, (j < i - i0)%nat -> nth_error ms j = Some m ->
                 contains_point m x y = false.
Proof.
  revert i0. induction ms as [|m0 ms IH]; intros i0; simpl; [discriminate|].
  destruct (contains_point m0 x y) eqn:Hin.
  - intros Heq. injection Heq as <-. rewrite Nat.sub_diag.
    split; [lia|]. split; [exists m0; now split|].
    intros j m Hj. lia.
  - intros Hrest. destruct (IH _ Hrest) as (Hle & (m & Hm & Hc) & Hfirst).
    split; [lia|].
    replace (i - i0)%nat with (S (i - S i0)) by lia.
    split; [exists m; now split|].
    intros [|j] m' Hj Hnth; simpl in Hnth.
    + now injection Hnth as <-.
    + apply (Hfirst j m'); [lia|exact Hnth].
Qed.

Lemma first_containing_none (ms : list monitor) (i0 : nat) (x y : Z) :
  first_containing ms i0 x y = None ->
  forall j m, nth_error ms j = Some m -> contains_point m x y = false.
Proof.
  revert i0. induction ms as [|m0 ms IH]; intros i0; simpl.
  - intros _ [|j] m; discriminate.
  - destruct (contains_point m0 x y) eqn:Hin; [discriminate|].
    intros Hrest [|j] m Hnth; simpl in Hnth.
    + now injection Hnth as <-.
    + exact (IH _ Hrest j m Hnth).
Qed.

Lemma nth_error_tl (ms : list monitor) (j : nat) :
  nth_error (tl ms) j = nth_error ms (S j).
Proof.
  destruct ms; [now destruct j|reflexivity].
Qed.

(** X24: which monitor is grabbed.  The index is never 0, the entry of
    all monitors combined.  When some real monitor holds the point, the
    chosen one holds it and is the first that does; when none does, or no
    point is given, the choice is monitor 1. *)
Theorem choose_monitor_picks_the_first_holder
  (ms : list monitor) (x y : Z) :
  (forall center, (1 <= choose_monitor ms center)%nat)
  /\ (forall j m,
        (1 <= j)%nat -> nth_error ms j = Some m -> contains_point m x y = true ->
        (choose_monitor ms (Some (x, y)) <= j)%nat
        /\ exists chosen,
             nth_error ms (choose_monitor ms (Some (x, y))) = Some chosen
             /\ contains_point chosen x y = true)
  /\ ((forall j m, (1 <= j)%nat -> nth_error ms j = Some m ->
                   contains_point m x y = false) ->
      choose_monitor ms (Some (x, y)) = 1%nat)
  /\ choose_monitor ms None = 1%nat.
Proof.
  split; [|split; [|split]].
  - intros [[cx cy]|]; unfold choose_monitor; [|lia].
    destruct (first_containing (tl ms) 1 cx cy) as [i|] eqn:Hf; [|lia].
    now destruct (first_containing_some _ _ _ _ _ Hf).
  - intros j m Hj Hnth Hin. unfold choose_monitor.
    destruct (first_containing (tl ms) 1 x y) as [i|] eqn:Hf.
    + destruct (first_containing_some _ _ _ _ _ Hf)
        as (Hle & (mi & Hmi & Hci) & Hfirst).
      split.
      * destruct (Nat.le_gt_cases i j) as [Hij|Hij]; [exact Hij|].
        exfalso.
        assert (Hfalse : contains_point m x y = false).
        { apply (Hfirst (j - 1)%nat m); [lia|].
          rewrite nth_error_tl. now replace (S (j - 1)) with j by lia. }
        congruence.
      * exists mi. split; [|exact Hci].
        rewrite nth_error_tl in Hmi.
        now replace (S (i - 1)) with i in Hmi by lia.
    + exfalso.
      assert (Hfalse : contains_point m x y = false).
      { apply (first_containing_none _ _ _ _ Hf (j - 1)%nat m).
        rewrite nth_error_tl. now replace (S (j - 1)) with j by lia. }
      congruence.
  - intros Hnone. unfold choose_monitor.
    destruct (first_containing (tl ms) 1 x y) as [i|] eqn:Hf; [|reflexivity].
    destruct (first_containing_some _ _ _ _ _ Hf)
      as (Hle & (mi & Hmi & Hci) & _).
    rewrite nth_error_tl in Hmi.
    replace (S (i - 1)) with i in Hmi by lia.
    rewrite (Hnone i mi Hle Hmi) in Hci. discriminate Hci.
  - reflexivity.
Qed.

Section WithMss.
Context {W image : Type} `{Mss W image}.

(** X25: [capture_screenshot] never raises, and failure is [None].  With
    the monitor list read, the image is the grab of the chosen monitor;
    when the list has no real monitor at the chosen index, or the grab
    fails, the result is [None]. *)
Theorem capture_screenshot_outcomes (center : option (Z * Z)) (w w1 : W)
  (ms : list monitor) :
  monitors w = (Ok ms, w1) ->
  (exists r w', capture_screenshot center w = (Ok r, w'))
  /\ (nth_error ms (choose_monitor ms center) = None ->
      capture_screenshot center w = (Ok None, w1))
  /\ (forall m,
        nth_error ms (choose_monitor ms center) = Some m ->
        capture_screenshot center w =
        match grab_image m w1 with
        | (Ok img, w') => (Ok (Some img), w')
        | (Raise _, w') => (Ok None, w')
        end).
Proof.
  intros Hms. split; [apply try_exceptM_returns|]. split.
  - intros Hnone. unfold capture_screenshot.
    rewrite try_exceptM_exception.
    rewrite (bindM_ok _ _ _ _ _ Hms). now rewrite SmartFacts.bindM_lift, Hnone.
  - intros m Hm. unfold capture_screenshot.
    rewrite try_exceptM_exception.
    rewrite (bindM_ok _ _ _ _ _ Hms). rewrite SmartFacts.bindM_lift, Hm.
    unfold bindM, ret. now destruct (grab_image m w1) as [[img|e] w'].
Qed.

End WithMss.

Lemma choose_monitor_picks_the_first_holder_witness :
  (Nat.le (choose_monitor DeskLab.desk (Some (2500, 400))) 2
   /\ exists chosen,
        nth_error DeskLab.desk (choose_monitor DeskLab.desk (Some (2500, 400)))
        = Some chosen
        /\ contains_point chosen 2500 400 = true)
  /\ choose_monitor DeskLab.desk (Some (5000, 400)) = 1%nat.
Proof.
  destruct (choose_monitor_picks_the_first_holder DeskLab.desk 2500 400)
    as (_ & Hfirst & _).
  destruct (choose_monitor_picks_the_first_holder DeskLab.desk 5000 400)
    as (_ & _ & Hnone & _).
  split.
  - apply (Hfirst 2%nat DeskLab.right_screen); [lia|reflexivity|reflexivity].
  - apply Hnone. intros [|[|[|j]]] m Hj Hnth; try lia;
      try (injection Hnth as <-; reflexivity).
    destruct j; discriminate Hnth.
Defined.

Lemma capture_screenshot_outcomes_witness :
  @capture_screenshot _ _ (DeskLab.mss DeskLab.desk) (Some (2500, 400)) []
  = (Ok (Some DeskLab.right_screen), [DeskLab.right_screen])
  /\ @capture_screenshot _ _ (DeskLab.mss [DeskLab.combined]) None []
     = (Ok None, []).
Proof.
  destruct (@capture_screenshot_outcomes _ _ (DeskLab.mss DeskLab.desk)
              (Some (2500, 400)) [] [] DeskLab.desk eq_refl)
    as (_ & _ & Hgrab).
  destruct (@capture_screenshot_outcomes _ _ (DeskLab.mss [DeskLab.combined])
              None [] [] [DeskLab.combined] eq_refl)
    as (_ & Hnone & _).
  split.
  - rewrite (Hgrab DeskLab.right_screen eq_refl). reflexivity.
  - apply Hnone. reflexivity.
Defined.

End ScreenshotFacts.
